(** * Invoice creator: extraction, form defaults, validation and submission

    A shallow embedding of [combined.py], the Streamlit script that sends a
    PDF to an OCR service, asks a chat model for the invoice fields as JSON,
    shows them in an editable form and posts the invoice to Oracle Fusion.

    The script is a sequence of handlers, each run when its button is
    pressed.  Every handler is a function of the session state, of the
    values the widgets return and of an environment [Env] that stands for
    what lies outside the script: the chat service, the HTTP endpoint, the
    calendar and the parsers of the Python library.  What a handler shows
    or sends is returned as a list of [event]s, in program order.

    Python floats are IEEE 754 binary64 numbers, modelled with the
    executable specification [SpecFloat] (precision 53, maximal exponent
    1024, rounding to nearest even).  Strings are byte strings holding the
    UTF-8 encoding of the Python text. *)

From Stdlib Require Import ZArith List Bool Lia String Ascii SpecFloat.
Import ListNotations.
#[local] Set Warnings "-register-all".
Local Open Scope string_scope.
Local Open Scope Z_scope.

(** ** Binary64 arithmetic *)

Module F64.

Definition prec : Z := 53.
Definition emax : Z := 1024.

Definition float : Type := spec_float.

Definition add : float -> float -> float := SFadd prec emax.
Definition sub : float -> float -> float := SFsub prec emax.
Definition div : float -> float -> float := SFdiv prec emax.
Definition abs : float -> float := SFabs.
Definition ltb : float -> float -> bool := SFltb.
Definition leb : float -> float -> bool := SFleb.

(** [float(n)] for an integer that fits: the nearest binary64 number. *)
Definition of_Z (n : Z) : float := binary_normalize prec emax n 0 false.

Definition zero : float := S754_zero false.

(** The decimal literal [m / 10^k].  Numerator and denominator are exact
    in binary64 for the literals of the script, so the correctly rounded
    quotient is the binary64 value Python reads the literal as. *)
Definition decimal (m : Z) (k : Z) : float := div (of_Z m) (of_Z (10 ^ k)).

Definition is_nan (x : float) : bool :=
  match x with S754_nan => true | _ => false end.

(** [math.isfinite]: neither an infinity nor a NaN. *)
Definition is_finite (x : float) : bool :=
  match x with
  | S754_zero _ | S754_finite _ _ _ => true
  | S754_infinity _ | S754_nan => false
  end.

(** Truth value of a float: [x != 0.0], so a NaN counts as true. *)
Definition nonzero (x : float) : bool :=
  match x with S754_zero _ => false | _ => true end.

End F64.

Definition float : Type := F64.float.

(** ** The built-in [sum] on floats

    [sum] starts from the integer [0] and adds the items from left to
    right; [0 + x] is [0.0 + x] in binary64.  On an empty sequence the
    result is the integer [0], which the script only subtracts a float
    from, so it is read as [0.0]. *)

Definition sum_left_to_right (xs : list float) : float :=
  fold_left F64.add xs F64.zero.

(** CPython 3.12 and later keep a compensation term [c] beside the running
    total [f_result] (Neumaier's variant of Kahan summation) and add it at
    the end when it is non-zero and finite. *)
Fixpoint sum_neumaier (f_result c : float) (xs : list float) : float :=
  match xs with
  | [] =>
      if F64.nonzero c && F64.is_finite c then F64.add f_result c
      else f_result
  | x :: rest =>
      let t := F64.add f_result x in
      let c' :=
        if F64.leb (F64.abs x) (F64.abs f_result)
        then F64.add c (F64.add (F64.sub f_result t) x)
        else F64.add c (F64.add (F64.sub x t) f_result) in
      sum_neumaier t c' rest
  end.

Definition sum_compensated (xs : list float) : float :=
  match xs with
  | [] => F64.zero
  | x :: rest => sum_neumaier (F64.add F64.zero x) F64.zero rest
  end.

Definition py_sum (compensated : bool) (xs : list float) : float :=
  if compensated then sum_compensated xs else sum_left_to_right xs.

(** ** Python values, exceptions and dictionaries *)

(** The values [json.loads] produces.  A dict is the list of its items;
    its keys are distinct. *)
Inductive pyval : Type :=
| PNone
| PBool (b : bool)
| PInt (n : Z)
| PFloat (x : float)
| PStr (s : string)
| PList (items : list pyval)
| PDict (entries : list (string * pyval)).

Inductive exn_class : Type :=
| TypeError | ValueError | KeyError | IndexError | AttributeError
| OverflowError
| RequestException   (* requests.exceptions.RequestException and subclasses *)
| OtherException.

(** An exception: its class and [str(e)]. *)
Record exn : Type := Exn { exn_kind : exn_class; exn_str : string }.

(** A computation that returns a value or raises. *)
Definition result (A : Type) : Type := (exn + A)%type.
Definition ret {A} (a : A) : result A := inr a.
Definition raise {A} (k : exn_class) (msg : string) : result A :=
  inl (Exn k msg).
Definition bind {A B} (m : result A) (f : A -> result B) : result B :=
  match m with inl e => inl e | inr a => f a end.

Notation "x <- m ;; k" := (bind m (fun x => k))
  (at level 61, m at next level, right associativity).

(** Truth value of a Python object, as [if], [not] and [all] test it. *)
Definition truthy (v : pyval) : bool :=
  match v with
  | PNone => false
  | PBool b => b
  | PInt n => negb (n =? 0)
  | PFloat x => F64.nonzero x
  | PStr s => negb (String.eqb s EmptyString)
  | PList items => match items with [] => false | _ => true end
  | PDict entries => match entries with [] => false | _ => true end
  end.

Definition str_truthy (s : string) : bool := negb (String.eqb s EmptyString).

Fixpoint lookup (key : string) (entries : list (string * pyval))
  : option pyval :=
  match entries with
  | [] => None
  | (k, v) :: rest => if String.eqb k key then Some v else lookup key rest
  end.

(** [d.get(key, default)]; an object that is not a dict has no [get]. *)
Definition py_get (d : pyval) (key : string) (default : pyval)
  : result pyval :=
  match d with
  | PDict entries =>
      ret (match lookup key entries with Some v => v | None => default end)
  | _ => raise AttributeError "object has no attribute 'get'"
  end.

(** [item[key]] for a string key: only a dict takes one. *)
Definition py_key (item : pyval) (key : string) : result pyval :=
  match item with
  | PDict entries =>
      match lookup key entries with
      | Some v => ret v
      | None => raise KeyError key
      end
  | PList _ | PStr _ => raise TypeError "indices must be integers"
  | _ => raise TypeError "object is not subscriptable"
  end.

(** A UTF-8 continuation byte [10xxxxxx]. *)
Definition is_continuation (c : ascii) : bool :=
  (128 <=? Z.of_N (N_of_ascii c)) && (Z.of_N (N_of_ascii c) <? 192).

(** Number of code points of a UTF-8 string. *)
Fixpoint py_str_len (s : string) : Z :=
  match s with
  | EmptyString => 0
  | String c rest => (if is_continuation c then 0 else 1) + py_str_len rest
  end.

Fixpoint take_continuation (s : string) : string :=
  match s with
  | EmptyString => EmptyString
  | String c rest =>
      if is_continuation c then String c (take_continuation rest)
      else EmptyString
  end.

(** The [i]-th code point of a string, as a one-character string. *)
Fixpoint py_str_item (s : string) (i : nat) : option string :=
  match s with
  | EmptyString => None
  | String c rest =>
      if is_continuation c then py_str_item rest i
      else match i with
           | O => Some (String c (take_continuation rest))
           | S j => py_str_item rest j
           end
  end.

(** [len(v)]. *)
Definition py_len (v : pyval) : result Z :=
  match v with
  | PStr s => ret (py_str_len s)
  | PList items => ret (Z.of_nat (List.length items))
  | PDict entries => ret (Z.of_nat (List.length entries))
  | _ => raise TypeError "object has no len()"
  end.

(** [v[i]] for a non-negative integer index [i].  The keys of a dict read
    from JSON are strings, so an integer is never among them. *)
Definition py_index (v : pyval) (i : nat) : result pyval :=
  match v with
  | PList items =>
      match nth_error items i with
      | Some x => ret x
      | None => raise IndexError "list index out of range"
      end
  | PStr s =>
      match py_str_item s i with
      | Some c => ret (PStr c)
      | None => raise IndexError "string index out of range"
      end
  | PDict _ => raise KeyError "key"
  | _ => raise TypeError "object is not subscriptable"
  end.

(** ** Strings, dates and encodings *)

Definition digit_char (d : Z) : ascii := ascii_of_N (Z.to_N (48 + d)).

(** Decimal digits of a non-negative number, most significant first. *)
Fixpoint digits_fuel (fuel : nat) (n : Z) (acc : string) : string :=
  match fuel with
  | O => acc
  | S k =>
      let acc' := String (digit_char (n mod 10)) acc in
      if n <? 10 then acc' else digits_fuel k (n / 10) acc'
  end.

(** [str(n)] for an integer. *)
Definition string_of_Z (n : Z) : string :=
  let m := Z.abs n in
  let ds := digits_fuel (S (Z.to_nat (Z.log2 m))) m EmptyString in
  if n <? 0 then String "-" ds else ds.

(** [s.rjust(w, "0")]: zeros on the left up to width [w]. *)
Fixpoint zero_pad_fuel (fuel w : nat) (s : string) : string :=
  match fuel with
  | O => s
  | S k =>
      if Nat.ltb (String.length s) w then zero_pad_fuel k w (String "0" s)
      else s
  end.

Definition zero_pad (w : nat) (s : string) : string := zero_pad_fuel w w s.

Record date : Type := Date { year : Z; month : Z; day : Z }.

(** [d.strftime("%Y-%m-%d")]: the year in four digits, month and day in
    two. *)
Definition strftime_Ymd (d : date) : string :=
  zero_pad 4 (string_of_Z (year d)) ++ "-" ++
  zero_pad 2 (string_of_Z (month d)) ++ "-" ++
  zero_pad 2 (string_of_Z (day d)).

(** [s.rstrip("/")] *)
Fixpoint rstrip_slash (s : string) : string :=
  match s with
  | EmptyString => EmptyString
  | String c rest =>
      match rstrip_slash rest with
      | EmptyString => if Ascii.eqb c "/" then EmptyString
                       else String c EmptyString
      | r => String c r
      end
  end.

Definition b64_alphabet : string :=
  "ABCDEFGHIJKLMNOPQRSTUVWXYZabcdefghijklmnopqrstuvwxyz0123456789+/".

Definition b64_char (n : Z) : ascii :=
  match String.get (Z.to_nat n) b64_alphabet with
  | Some c => c
  | None => "="%char
  end.

Definition byte (c : ascii) : Z := Z.of_N (N_of_ascii c).

(** [base64.b64encode] *)
Fixpoint b64encode (s : string) : string :=
  match s with
  | EmptyString => EmptyString
  | String a EmptyString =>
      String (b64_char (byte a / 4))
        (String (b64_char (byte a mod 4 * 16)) "==")
  | String a (String b EmptyString) =>
      String (b64_char (byte a / 4))
        (String (b64_char (byte a mod 4 * 16 + byte b / 16))
           (String (b64_char (byte b mod 16 * 4)) "="))
  | String a (String b (String c rest)) =>
      String (b64_char (byte a / 4))
        (String (b64_char (byte a mod 4 * 16 + byte b / 16))
           (String (b64_char (byte b mod 16 * 4 + byte c / 64))
              (String (b64_char (byte c mod 64)) (b64encode rest))))
  end.

(** ** Widget values, payload and the outside world *)

(** Sidebar: the authentication method selects which credential inputs
    exist. *)
Inductive auth_settings : Type :=
| BasicAuth (username password : string)
| OAuth2 (access_token : string).

Record sidebar : Type := Sidebar {
  mistral_api_key : string;
  auth_method : auth_settings;
  fusion_url : string
}.

(** One entry of [lines_data]. *)
Record line : Type := Line { amount : float; dist_comb : string }.

(** The values the widgets of step 3 return when the script runs. *)
Record form : Type := Form {
  business_unit : string;
  supplier_name : string;
  supplier_site : string;
  invoice_number : string;
  invoice_amount : float;
  invoice_date : date;
  invoice_currency : string;
  payment_terms : string;
  invoice_group : string;
  description : string;
  lines_data : list line
}.

Record line_payload : Type := LinePayload {
  LineNumber : Z;
  LineAmount : float;
  AccountingDate : string;
  DistributionCombination : string
}.

Record payload : Type := Payload {
  InvoiceNumber : string;
  InvoiceCurrency : string;
  InvoiceAmount : float;
  InvoiceDate : string;
  BusinessUnit : string;
  Supplier : string;
  SupplierSite : string;
  InvoiceGroup : string;
  Description : string;
  invoiceLines : list line_payload
}.

(** The arguments of [requests.post]. *)
Record request : Type := Request {
  api_endpoint : string;
  headers : list (string * string);
  json : payload;
  timeout : Z
}.

(** A [requests.Response]: status, body text and what [response.json()]
    gives on it. *)
Record response : Type := Response {
  status_code : Z;
  text : string;
  response_json : result pyval
}.

(** What lies outside the script. *)
Record Env : Type := {
  (* Mistral(api_key).chat.complete(...).choices[0].message.content for a
     key and a prompt: the reply text, or the exception raised on the way *)
  chat_complete : string -> string -> result string;
  (* json.loads *)
  json_loads : string -> result pyval;
  (* float(s) on a string: the number, or ValueError *)
  float_of_str : string -> option float;
  (* datetime.strptime(s, "%Y-%m-%d").date(): the date, or ValueError *)
  strptime_Ymd : string -> option date;
  (* datetime.now().date() *)
  today : date;
  (* requests.post *)
  requests_post : request -> result response;
  (* whether the interpreter's [sum] compensates (CPython 3.12 on) *)
  compensated_sum : bool
}.

(** What a handler shows and sends, in program order. *)
Inductive event : Type :=
| st_success (msg : string)
| st_error (msg : string)
| st_json (v : pyval)
| st_json_payload (p : payload)     (* the "Review API Payload" expander *)
| post (r : request).

(** ** Step 4: Create Oracle Fusion Invoice *)

Fixpoint enumerate_from {A} (start : Z) (l : list A) : list (Z * A) :=
  match l with
  | [] => []
  | x :: rest => (start, x) :: enumerate_from (start + 1) rest
  end.

Definition enumerate {A} (l : list A) : list (Z * A) := enumerate_from 0 l.

Definition required_fields (sb : sidebar) (f : form) : list string :=
  ([business_unit f; supplier_name f; supplier_site f;
    invoice_number f; fusion_url sb; invoice_currency f] ++
   match auth_method sb with
   | BasicAuth username password => [username; password]
   | OAuth2 access_token => [access_token]
   end)%list.

Definition auth_header (sb : sidebar) : list (string * string) :=
  match auth_method sb with
  | BasicAuth username password =>
      let credentials := b64encode (username ++ ":" ++ password) in
      [("Authorization", "Basic " ++ credentials)]
  | OAuth2 access_token => [("Authorization", "Bearer " ++ access_token)]
  end.

Definition invoice_lines (f : form) : list line_payload :=
  map (fun '(idx, l) =>
         {| LineNumber := idx + 1;
            LineAmount := amount l;
            AccountingDate := strftime_Ymd (invoice_date f);
            DistributionCombination := dist_comb l |})
      (enumerate (lines_data f)).

Definition build_payload (f : form) : payload :=
  {| InvoiceNumber := invoice_number f;
     InvoiceCurrency := invoice_currency f;
     InvoiceAmount := invoice_amount f;
     InvoiceDate := strftime_Ymd (invoice_date f);
     BusinessUnit := business_unit f;
     Supplier := supplier_name f;
     SupplierSite := supplier_site f;
     InvoiceGroup := invoice_group f;
     Description := description f;
     invoiceLines := invoice_lines f |}.

Definition build_request (sb : sidebar) (p : payload) : request :=
  {| api_endpoint :=
       rstrip_slash (fusion_url sb) ++
       "/fscmRestApi/resources/11.13.18.05/invoices";
     headers :=
       ([("Content-Type", "application/vnd.oracle.adf.resourceitem+json");
         ("Accept", "application/json")] ++ auth_header sb)%list;
     json := p;
     timeout := 30 |}.

(** The two [except] clauses that close the [try] block of step 4. *)
Definition submit_except (e : exn) : event :=
  match exn_kind e with
  | RequestException => st_error ("❌ Network error: " ++ exn_str e)
  | _ => st_error ("❌ Unexpected error: " ++ exn_str e)
  end.

(** The literal [1e-6]. *)
Definition tolerance : float := F64.decimal 1 6.

(** The three tests on numbers and lines, as the [elif] chain writes
    them. *)
Definition amount_not_positive (f : form) : bool :=
  F64.leb (invoice_amount f) (F64.of_Z 0).

Definition sum_mismatch (env : Env) (f : form) : bool :=
  F64.ltb tolerance
    (F64.abs (F64.sub (py_sum (compensated_sum env)
                               (map amount (lines_data f)))
                      (invoice_amount f))).

Definition all_dist_comb (f : form) : bool :=
  forallb (fun l => str_truthy (dist_comb l)) (lines_data f).

(** The [else] branch: build, preview, post, report. *)
Definition submit (env : Env) (sb : sidebar) (f : form) : list event :=
  let p := build_payload f in
  let r := build_request sb p in
  st_json_payload p :: post r ::
  match requests_post env r with
  | inl e => [submit_except e]
  | inr resp =>
      if Z.eqb (status_code resp) 200 || Z.eqb (status_code resp) 201 then
        st_success "🎉 Invoice created successfully in Oracle Fusion!" ::
        match response_json resp with
        | inr body => [st_json body]
        | inl e => [submit_except e]
        end
      else
        [st_error ("❌ Error creating invoice: " ++
                   string_of_Z (status_code resp));
         st_error ("Response: " ++ text resp)]
  end.

(** The handler of the "Create Invoice in Oracle" button. *)
Definition create_invoice (env : Env) (sb : sidebar) (f : form)
  : list event :=
  if negb (forallb str_truthy (required_fields sb f)) then
    [st_error "❌ Please fill in all required fields marked with *"]
  else if amount_not_positive f then
    [st_error "❌ Invoice amount must be greater than 0"]
  else if sum_mismatch env f then
    [st_error "❌ Sum of line amounts must equal invoice amount"]
  else if negb (all_dist_comb f) then
    [st_error "❌ All lines must have distribution combinations"]
  else submit env sb f.

(** ** Step 2: Extract Invoice Fields *)

(** The session state the script keeps between runs. *)
Record session : Type := Session {
  ocr_result : option string;
  extracted_data : pyval;
  pdf_processed : bool
}.

Definition initial_session : session :=
  {| ocr_result := None; extracted_data := PDict []; pdf_processed := false |}.

Definition set_extracted_data (st : session) (v : pyval) : session :=
  {| ocr_result := ocr_result st;
     extracted_data := v;
     pdf_processed := pdf_processed st |}.

Definition nl : string := String (ascii_of_nat 10) EmptyString.
Definition dq : string := String (ascii_of_nat 34) EmptyString.

Definition prompt_head : string :=
  nl ++
  "                Analyze this invoice text and extract the following information in JSON format:" ++ nl ++
  "                " ++ nl ++
  "                {" ++ nl ++
  "                    " ++ dq ++ "invoice_number" ++ dq ++ ": " ++ dq ++ "invoice number" ++ dq ++ "," ++ nl ++
  "                    " ++ dq ++ "invoice_date" ++ dq ++ ": " ++ dq ++ "date in YYYY-MM-DD format" ++ dq ++ "," ++ nl ++
  "                    " ++ dq ++ "invoice_amount" ++ dq ++ ": " ++ dq ++ "total amount as number" ++ dq ++ "," ++ nl ++
  "                    " ++ dq ++ "supplier_name" ++ dq ++ ": " ++ dq ++ "vendor/supplier name" ++ dq ++ "," ++ nl ++
  "                    " ++ dq ++ "supplier_address" ++ dq ++ ": " ++ dq ++ "supplier address" ++ dq ++ "," ++ nl ++
  "                    " ++ dq ++ "currency" ++ dq ++ ": " ++ dq ++ "currency code (default USD)" ++ dq ++ "," ++ nl ++
  "                    " ++ dq ++ "description" ++ dq ++ ": " ++ dq ++ "invoice description or main service/product" ++ dq ++ "," ++ nl ++
  "                    " ++ dq ++ "line_items" ++ dq ++ ": [" ++ nl ++
  "                        {" ++ nl ++
  "                            " ++ dq ++ "description" ++ dq ++ ": " ++ dq ++ "line item description" ++ dq ++ "," ++ nl ++
  "                            " ++ dq ++ "amount" ++ dq ++ ": " ++ dq ++ "line amount as number" ++ dq ++ nl ++
  "                        }" ++ nl ++
  "                    ]" ++ nl ++
  "                }" ++ nl ++
  "                " ++ nl ++
  "                Invoice Text:" ++ nl ++
  "                ".

Definition prompt_tail : string :=
  nl ++
  "                " ++ nl ++
  "                Return only the JSON object, no other text." ++ nl ++
  "                ".

(** [str(x)] of the stored OCR text inside the f-string. *)
Definition ocr_text (st : session) : string :=
  match ocr_result st with Some t => t | None => "None" end.

Definition extraction_prompt (st : session) : string :=
  prompt_head ++ ocr_text st ++ prompt_tail.

(** The regular expression [\{.*\}] with [re.DOTALL], as a backtracking
    matcher runs it.  The braces are ASCII, so matching on the UTF-8 bytes
    selects the same text as matching on code points. *)

(** [.*\}] from a given position: the dot takes every character, so the
    longest candidate is tried first and the match gives back characters
    until one that is a closing brace ends it. *)
Fixpoint match_dotstar_close (s : string) : option string :=
  match s with
  | EmptyString => None
  | String c rest =>
      match match_dotstar_close rest with
      | Some m => Some (String c m)
      | None => if Ascii.eqb c "}" then Some (String c EmptyString) else None
      end
  end.

(** [re.search(r'\{.*\}', s, re.DOTALL)], then [.group()]: the start
    positions are tried from the left. *)
Fixpoint json_match (s : string) : option string :=
  match s with
  | EmptyString => None
  | String c rest =>
      if Ascii.eqb c "{" then
        match match_dotstar_close rest with
        | Some m => Some (String c m)
        | None => json_match rest
        end
      else json_match rest
  end.

(** The handler of the "Auto-Extract Invoice Data" button. *)
Definition auto_extract (env : Env) (sb : sidebar) (st : session)
  : session * list event :=
  match
    (extracted_json <-
       chat_complete env (mistral_api_key sb) (extraction_prompt st) ;;
     match json_match extracted_json with
     | Some group =>
         extracted <- json_loads env group ;;
         ret (set_extracted_data st extracted,
              [st_success "✅ Invoice data extracted successfully!"])
     | None => ret (st, [st_error "❌ Could not parse extracted data"])
     end)
  with
  | inr r => r
  | inl e => (st, [st_error ("❌ Error extracting data: " ++ exn_str e)])
  end.

(** ** Step 3: the values the form fields start from *)

(** [float(v)] *)
Definition py_float (env : Env) (v : pyval) : result float :=
  match v with
  | PFloat x => ret x
  | PInt n =>
      if F64.is_finite (F64.of_Z n) then ret (F64.of_Z n)
      else raise OverflowError "int too large to convert to float"
  | PBool b => ret (F64.of_Z (if b then 1 else 0))
  | PStr s =>
      match float_of_str env s with
      | Some x => ret x
      | None => raise ValueError "could not convert string to float"
      end
  | PNone | PList _ | PDict _ =>
      raise TypeError "float() argument must be a string or a real number"
  end.

(** [datetime.strptime(v, "%Y-%m-%d").date()] *)
Definition py_strptime (env : Env) (v : pyval) : result date :=
  match v with
  | PStr s =>
      match strptime_Ymd env s with
      | Some d => ret d
      | None => raise ValueError "time data does not match format"
      end
  | _ => raise TypeError "strptime() argument 1 must be str"
  end.

(** The [value=] argument of the "Invoice Amount" input. *)
Definition invoice_amount_value (env : Env) (data : pyval) : result float :=
  v <- py_get data "invoice_amount" (PInt 0) ;;
  py_float env v.

(** The [value=] argument of the "Invoice Date" input: the [try] block
    with its bare [except].  The input itself is taken to accept the date
    it is given. *)
Definition invoice_date_value (env : Env) (data : pyval) : result date :=
  extracted_date <- py_get data "invoice_date" (PStr EmptyString) ;;
  ret (match
         (if truthy extracted_date then py_strptime env extracted_date
          else ret (today env))
       with
       | inr d => d
       | inl _ => today env
       end).

(** [extracted_lines], given the value the "Invoice Amount" input
    returned. *)
Definition extracted_lines (data : pyval) (invoice_amount : float)
  : result pyval :=
  items <- py_get data "line_items" (PList []) ;;
  ret (if negb (truthy items)
       then PList [PDict [("description", PStr "Service");
                          ("amount", PFloat invoice_amount)]]
       else items).

(** The arguments of a [st.number_input] call. *)
Record number_input (A : Type) : Type := NumberInput {
  min_value : A;
  max_value : option A;
  value : A
}.
Arguments NumberInput {A}.
Arguments min_value {A}.
Arguments max_value {A}.
Arguments value {A}.

(** The "Number of Lines" input. *)
Definition num_lines_input (lines : pyval) : result (number_input Z) :=
  n <- py_len lines ;;
  ret {| min_value := 1; max_value := Some 10; value := n |}.

(** The [value=] argument of the "Amount i+1" input of row [i]. *)
Definition line_amount_value (env : Env) (lines : pyval) (i : nat)
  : result float :=
  n <- py_len lines ;;
  if Z.of_nat i <? n then
    item <- py_index lines i ;;
    a <- py_key item "amount" ;;
    py_float env a
  else ret F64.zero.

(** The inclusive clamp of [n] to [[lo, hi]]. *)
Definition clamp (lo hi n : Z) : Z := Z.max lo (Z.min hi n).

(** ** A reference environment for worked examples *)

(** [datetime.strptime(s, "%Y-%m-%d")] on ASCII text.  The library turns
    the format into the regular expression
    [(?P<Y>\d\d\d\d)-(?P<m>1[0-2]|0[1-9]|[1-9])-(?P<d>3[0-1]|[1-2]\d|0[1-9]|[1-9]| [1-9])],
    matches it at the start of the text, rejects text left over after the
    match, and then builds the date, which checks the calendar. *)

Definition is_digit (c : ascii) : bool := (48 <=? byte c) && (byte c <=? 57).
Definition in_range (lo hi c : ascii) : bool :=
  (byte lo <=? byte c) && (byte c <=? byte hi).
Definition digit_value (c : ascii) : Z := byte c - 48.

(** The first alternative that lets the rest of the pattern match. *)
Fixpoint first_some {A} (alts : list (option A)) : option A :=
  match alts with
  | [] => None
  | Some a :: _ => Some a
  | None :: rest => first_some rest
  end.

(** Group [d], the last of the pattern: [(value, text left over)]. *)
Definition day_group (s : string) : option (Z * string) :=
  first_some
    [ match s with
      | String a (String b r) =>
          if Ascii.eqb a "3" && in_range "0" "1" b
          then Some (30 + digit_value b, r) else None
      | _ => None
      end;
      match s with
      | String a (String b r) =>
          if in_range "1" "2" a && is_digit b
          then Some (10 * digit_value a + digit_value b, r) else None
      | _ => None
      end;
      match s with
      | String a (String b r) =>
          if Ascii.eqb a "0" && in_range "1" "9" b
          then Some (digit_value b, r) else None
      | _ => None
      end;
      match s with
      | String a r =>
          if in_range "1" "9" a then Some (digit_value a, r) else None
      | _ => None
      end;
      match s with
      | String a (String b r) =>
          if Ascii.eqb a " " && in_range "1" "9" b
          then Some (digit_value b, r) else None
      | _ => None
      end ].

(** A literal [-], then the continuation. *)
Definition dash_then {A} (k : string -> option A) (s : string) : option A :=
  match s with
  | String c r => if Ascii.eqb c "-" then k r else None
  | EmptyString => None
  end.

(** Group [m], then the rest of the pattern [k]. *)
Definition month_group_then {A} (k : Z -> string -> option A) (s : string)
  : option A :=
  first_some
    [ match s with
      | String a (String b r) =>
          if Ascii.eqb a "1" && in_range "0" "2" b
          then k (10 + digit_value b) r else None
      | _ => None
      end;
      match s with
      | String a (String b r) =>
          if Ascii.eqb a "0" && in_range "1" "9" b
          then k (digit_value b) r else None
      | _ => None
      end;
      match s with
      | String a r =>
          if in_range "1" "9" a then k (digit_value a) r else None
      | _ => None
      end ].

(** Group [Y]: four digits. *)
Definition year_group (s : string) : option (Z * string) :=
  match s with
  | String a (String b (String c (String d r))) =>
      if is_digit a && is_digit b && is_digit c && is_digit d
      then Some (1000 * digit_value a + 100 * digit_value b +
                 10 * digit_value c + digit_value d, r)
      else None
  | _ => None
  end.

Definition is_leap (y : Z) : bool :=
  (y mod 4 =? 0) && (negb (y mod 100 =? 0) || (y mod 400 =? 0)).

Definition days_in_month (y m : Z) : Z :=
  if m =? 2 then (if is_leap y then 29 else 28)
  else if (m =? 4) || (m =? 6) || (m =? 9) || (m =? 11) then 30
  else 31.

(** [datetime.date(y, m, d)] accepts the triple. *)
Definition valid_date (d : date) : bool :=
  (1 <=? year d) && (year d <=? 9999) &&
  (1 <=? month d) && (month d <=? 12) &&
  (1 <=? day d) && (day d <=? days_in_month (year d) (month d)).

(** The pattern after group [Y]: [(month, day, text left over)]. *)
Definition month_day_part (s : string) : option (Z * Z * string) :=
  dash_then
    (month_group_then
       (fun m => dash_then
          (fun r =>
             match day_group r with
             | Some (d, left_over) => Some (m, d, left_over)
             | None => None
             end))) s.

Definition strptime_Ymd_ascii (s : string) : option date :=
  match year_group s with
  | None => None
  | Some (y, r) =>
      match month_day_part r with
      | Some (m, d, EmptyString) =>
          if valid_date (Date y m d) then Some (Date y m d) else None
      | _ => None
      end
  end.

(** A reply of the chat model with text around one JSON object. *)
Definition sample_object_text : string :=
  "{" ++ dq ++ "invoice_number" ++ dq ++ ": " ++ dq ++ "INV-7" ++ dq ++
  ", " ++ dq ++ "invoice_date" ++ dq ++ ": " ++ dq ++ "13/02/2024" ++ dq ++
  "}".

Definition sample_object : pyval :=
  PDict [("invoice_number", PStr "INV-7");
         ("invoice_date", PStr "13/02/2024")].

Definition sample_reply : string :=
  "Here is the data:" ++ nl ++ sample_object_text ++ nl ++ "Done.".

(** An environment: the chat model answers [reply], [json.loads] reads the
    sample object and rejects other text, [float] reads the numeral
    [1250.50] and rejects other text, the ERP answers [answer]. *)
Definition sample_env (reply : result string) (answer : result response)
  : Env :=
  {| chat_complete := fun _ _ => reply;
     json_loads := fun s =>
       if String.eqb s sample_object_text then ret sample_object
       else raise ValueError "Expecting value: line 1 column 1 (char 0)";
     float_of_str := fun s =>
       if String.eqb s "1250.50" then Some (F64.decimal 125050 2) else None;
     strptime_Ymd := strptime_Ymd_ascii;
     today := Date 2026 11 4;
     requests_post := fun _ => answer;
     compensated_sum := false |}.

Definition created : response :=
  {| status_code := 201;
     text := "{" ++ dq ++ "InvoiceId" ++ dq ++ ": 42}";
     response_json := ret (PDict [("InvoiceId", PInt 42)]) |}.

Definition bad_request : response :=
  {| status_code := 400;
     text := "{" ++ dq ++ "error" ++ dq ++ ":" ++ dq ++ "x" ++ dq ++ "}";
     response_json := ret (PDict [("error", PStr "x")]) |}.


Definition sample_sidebar : sidebar :=
  {| mistral_api_key := "key";
     auth_method := BasicAuth "user" "pass";
     fusion_url := "https://erp.example.com/" |}.

Definition sample_lines : list line :=
  [ {| amount := F64.of_Z 30; dist_comb := "A" |};
    {| amount := F64.decimal 700000001 7; dist_comb := "B" |} ].

Definition sample_form (total : float) (lines : list line) : form :=
  {| business_unit := "BU1";
     supplier_name := "ACME";
     supplier_site := "MAIN";
     invoice_number := "INV-7";
     invoice_amount := total;
     invoice_date := Date 2024 2 13;
     invoice_currency := "USD";
     payment_terms := EmptyString;
     invoice_group := EmptyString;
     description := "Services";
     lines_data := lines |}.

(** A candidate with eleven line items, and the form code run on it up to
    the "Number of Lines" input. *)
Definition eleven_items : list pyval :=
  repeat (PDict [("description", PStr "Item"); ("amount", PInt 1)]) 11.

Definition num_lines_of (data : pyval) (invoice_amount : float)
  : result (number_input Z) :=
  lines <- extracted_lines data invoice_amount ;;
  num_lines_input lines.

(** ** The vocabulary of the specification *)

Definition all_finite (xs : list float) : Prop :=
  Forall (fun x => F64.is_finite x = true) xs.

(** The amounts of a form are numbers: no infinity, no NaN. *)
Definition finite_amounts (f : form) : Prop :=
  F64.is_finite (invoice_amount f) = true /\
  all_finite (map amount (lines_data f)).

(** [abs(sum(line["amount"] for line in lines_data) - invoice_amount)] *)
Definition sum_difference (env : Env) (f : form) : float :=
  F64.abs (F64.sub (py_sum (compensated_sum env) (map amount (lines_data f)))
                   (invoice_amount f)).

(** The four rules, as the specification words them. *)
Definition rule1 (sb : sidebar) (f : form) : Prop :=
  Forall (fun s => s <> EmptyString) (required_fields sb f).
Definition rule2 (f : form) : Prop :=
  F64.ltb (F64.of_Z 0) (invoice_amount f) = true.
Definition rule3 (env : Env) (f : form) : Prop :=
  F64.leb (sum_difference env f) tolerance = true.
Definition rule4 (f : form) : Prop :=
  Forall (fun l => dist_comb l <> EmptyString) (lines_data f).

Definition builds_payload (evs : list event) : Prop :=
  exists p, In (st_json_payload p) evs.
Definition issues_request (evs : list event) : Prop :=
  exists r, In (post r) evs.

(** Every test of the [elif] chain lets the form through. *)
Definition validation_passes (env : Env) (sb : sidebar) (f : form) : bool :=
  forallb str_truthy (required_fields sb f) &&
  negb (amount_not_positive f) &&
  negb (sum_mismatch env f) &&
  all_dist_comb f.



(** The character [c] occurs in [s]. *)
Fixpoint contains (c : ascii) (s : string) : bool :=
  match s with
  | EmptyString => false
  | String a rest => Ascii.eqb a c || contains c rest
  end.

(** [span] is the text of [reply] from its first opening brace to its
    last closing brace. *)
Definition first_to_last_brace (reply span : string) : Prop :=
  exists pre body post,
    reply = pre ++ span ++ post /\
    span = "{" ++ body ++ "}" /\
    contains "{" pre = false /\
    contains "}" post = false.

(** The numbers [lo], [lo + 1], ..., [hi]. *)
Definition range (lo hi : Z) : list Z :=
  map (fun i => lo + Z.of_nat i) (seq 0 (Z.to_nat (hi - lo + 1))).

(** The four digits written for a year read back as that year. *)
Definition year_text_ok (y : Z) : bool :=
  match zero_pad 4 (string_of_Z y) with
  | String a (String b (String c (String d EmptyString))) =>
      is_digit a && is_digit b && is_digit c && is_digit d &&
      (1000 * digit_value a + 100 * digit_value b +
       10 * digit_value c + digit_value d =? y)
  | _ => false
  end.

(** The text written for a month and a day reads back as them. *)
Definition month_day_text_ok (m d : Z) : bool :=
  match
    month_day_part ("-" ++ zero_pad 2 (string_of_Z m) ++ "-" ++
                    zero_pad 2 (string_of_Z d))
  with
  | Some (m', d', EmptyString) => (m' =? m) && (d' =? d)
  | _ => false
  end.

(** ** Step 1: Upload Invoice PDF *)

(** The document handed to the OCR service and the call made with it. *)
Record document : Type := Document {
  doc_type : string;
  document_url : string
}.

Record ocr_request : Type := OcrRequest {
  ocr_model : string;
  ocr_document : document;
  include_image_base64 : bool
}.

(** A page of the answer: what reading [page.markdown] gives. *)
Record page : Type := Page { markdown : result pyval }.

(** The three shapes of answer the script tells apart: an object with a
    [pages] attribute, a list, anything else. *)
Inductive ocr_response : Type :=
| HasPages (pages : list page)
| IsList (items : list page)
| OtherObject.

(** [Mistral(api_key=key).ocr.process(...)] *)
Definition ocr_service : Type := string -> ocr_request -> result ocr_response.

Definition encode_document (file_bytes : string) : document :=
  let encoded_pdf := b64encode file_bytes in
  {| doc_type := "document_url";
     document_url := "data:application/pdf;base64," ++ encoded_pdf |}.

Definition pages_of (r : ocr_response) : list page :=
  match r with
  | HasPages pages => pages
  | IsList items => items
  | OtherObject => []
  end.

(** [type(v).__name__] *)
Definition type_name (v : pyval) : string :=
  match v with
  | PNone => "NoneType"
  | PBool _ => "bool"
  | PInt _ => "int"
  | PFloat _ => "float"
  | PStr _ => "str"
  | PList _ => "list"
  | PDict _ => "dict"
  end.

(** [sep.join(xs)] on strings. *)
Fixpoint join (sep : string) (xs : list string) : string :=
  match xs with
  | [] => EmptyString
  | [x] => x
  | x :: rest => x ++ sep ++ join sep rest
  end.

(** The generator [page.markdown for page in pages], run to its end: the
    first attribute that cannot be read raises. *)
Fixpoint markdowns (ps : list page) : result (list pyval) :=
  match ps with
  | [] => ret []
  | p :: rest =>
      v <- markdown p ;;
      vs <- markdowns rest ;;
      ret (v :: vs)
  end.

(** [join] then checks its items in order: each must be a string. *)
Fixpoint expect_strs (i : Z) (vs : list pyval) : result (list string) :=
  match vs with
  | [] => ret []
  | PStr s :: rest =>
      ss <- expect_strs (i + 1) rest ;;
      ret (s :: ss)
  | v :: _ =>
      raise TypeError
        ("sequence item " ++ string_of_Z i ++ ": expected str instance, " ++
         type_name v ++ " found")
  end.

(** [result_text] *)
Definition result_text (ps : list page) : result string :=
  vs <- markdowns ps ;;
  ss <- expect_strs 0 vs ;;
  ret (join (nl ++ nl) ss).

(** The handler of the "Extract Invoice Data" button, given what
    [uploaded_file.read()] returns. *)
Definition extract_ocr (ocr : ocr_service) (sb : sidebar)
    (file_bytes : string) (st : session) : session * list event :=
  match
    (ocr_response <-
       ocr (mistral_api_key sb)
           {| ocr_model := "mistral-ocr-latest";
              ocr_document := encode_document file_bytes;
              include_image_base64 := true |} ;;
     result_text (pages_of ocr_response))
  with
  | inr t =>
      ({| ocr_result := Some t;
          extracted_data := extracted_data st;
          pdf_processed := true |},
       [st_success "✅ PDF processed successfully!"])
  | inl e => (st, [st_error ("❌ Error processing PDF: " ++ exn_str e)])
  end.

(** ** One run of the script *)

Inductive button : Type :=
| ExtractInvoiceData      (* step 1 *)
| AutoExtractInvoiceData  (* step 2 *)
| CreateInvoiceInOracle.  (* step 4 *)

(** The values the widgets of step 3 return in a run.  The rows of the
    lines are addressed by their index. *)
Record widgets : Type := Widgets {
  w_business_unit : string;
  w_supplier_name : string;
  w_supplier_site : string;
  w_invoice_number : string;
  w_invoice_amount : float;
  w_invoice_date : date;
  w_invoice_currency : string;
  w_payment_terms : string;
  w_invoice_group : string;
  w_description : string;
  w_num_lines : nat;
  w_line_amount : nat -> float;
  w_distribution_comb : nat -> string
}.

(** What a run is given: the uploaded file as [read()] returns it, the
    sidebar, the button pressed (at most one is) and the widget values. *)
Record run_input : Type := RunInput {
  uploaded_file : option string;
  side : sidebar;
  clicked : option button;
  values : widgets
}.

Definition button_eqb (a b : button) : bool :=
  match a, b with
  | ExtractInvoiceData, ExtractInvoiceData
  | AutoExtractInvoiceData, AutoExtractInvoiceData
  | CreateInvoiceInOracle, CreateInvoiceInOracle => true
  | _, _ => false
  end.

Definition pressed (inp : run_input) (b : button) : bool :=
  match clicked inp with
  | Some c => button_eqb c b
  | None => false
  end.

(** [lines_data] as the loop over [range(num_lines)] collects it. *)
Definition collect_lines (w : widgets) : list line :=
  map (fun i => {| amount := w_line_amount w i;
                   dist_comb := w_distribution_comb w i |})
      (seq 0 (w_num_lines w)).

Definition form_of_widgets (w : widgets) : form :=
  {| business_unit := w_business_unit w;
     supplier_name := w_supplier_name w;
     supplier_site := w_supplier_site w;
     invoice_number := w_invoice_number w;
     invoice_amount := w_invoice_amount w;
     invoice_date := w_invoice_date w;
     invoice_currency := w_invoice_currency w;
     payment_terms := w_payment_terms w;
     invoice_group := w_invoice_group w;
     description := w_description w;
     lines_data := collect_lines w |}.

(** The [value=] arguments of the rows, one after the other. *)
Fixpoint line_amount_values (env : Env) (lines : pyval) (rows : list nat)
  : result (list float) :=
  match rows with
  | [] => ret []
  | i :: rest =>
      x <- line_amount_value env lines i ;;
      xs <- line_amount_values env lines rest ;;
      ret (x :: xs)
  end.

(** Step 3 from top to bottom: every [value=] argument is computed, in
    the order of the script, and the widgets return [w].  An exception
    ends the run there. *)
Definition review_form (env : Env) (data : pyval) (w : widgets)
  : result form :=
  _ <- py_get data "supplier_name" (PStr EmptyString) ;;
  _ <- py_get data "invoice_number" (PStr EmptyString) ;;
  _ <- invoice_amount_value env data ;;
  _ <- invoice_date_value env data ;;
  _ <- py_get data "currency" (PStr "USD") ;;
  _ <- py_get data "description" (PStr EmptyString) ;;
  lines <- extracted_lines data (w_invoice_amount w) ;;
  _ <- num_lines_input lines ;;
  _ <- line_amount_values env lines (seq 0 (w_num_lines w)) ;;
  ret (form_of_widgets w).

(** The outcome of a run: the session it leaves, what it showed and sent,
    and the exception that ended it, if one did. *)
Record outcome : Type := Outcome {
  final : session;
  shown : list event;
  uncaught : option exn
}.

(** [if st.session_state["pdf_processed"] and st.session_state["ocr_result"]] *)
Definition step2_open (st : session) : bool :=
  pdf_processed st &&
  match ocr_result st with
  | Some t => str_truthy t
  | None => false
  end.

(** The script, top to bottom. *)
Definition run (ocr : ocr_service) (env : Env) (inp : run_input)
    (st : session) : outcome :=
  let '(st1, ev1) :=
    match uploaded_file inp with
    | Some file_bytes =>
        if str_truthy (mistral_api_key (side inp)) &&
           pressed inp ExtractInvoiceData
        then extract_ocr ocr (side inp) file_bytes st
        else (st, [])
    | None => (st, [])
    end in
  if step2_open st1 then
    let '(st2, ev2) :=
      if pressed inp AutoExtractInvoiceData
      then auto_extract env (side inp) st1
      else (st1, []) in
    if truthy (extracted_data st2) then
      match review_form env (extracted_data st2) (values inp) with
      | inl e =>
          {| final := st2; shown := (ev1 ++ ev2)%list; uncaught := Some e |}
      | inr f =>
          {| final := st2;
             shown := (ev1 ++ ev2 ++
                       if pressed inp CreateInvoiceInOracle
                       then create_invoice env (side inp) f
                       else [])%list;
             uncaught := None |}
      end
    else {| final := st2; shown := (ev1 ++ ev2)%list; uncaught := None |}
  else {| final := st1; shown := ev1; uncaught := None |}.

(** The sessions a user can reach from a fresh one. *)
Inductive reachable : session -> Prop :=
| reach_init : reachable initial_session
| reach_run (ocr : ocr_service) (env : Env) (inp : run_input) (st : session) :
    reachable st -> reachable (final (run ocr env inp st)).

(** The place of a character in the base64 alphabet. *)
Fixpoint index_of (c : ascii) (s : string) : Z :=
  match s with
  | EmptyString => 0
  | String a rest => if Ascii.eqb a c then 0 else 1 + index_of c rest
  end.

Definition b64_index (c : ascii) : Z := index_of c b64_alphabet.

(** The form [f] with other payment terms. *)
Definition with_payment_terms (f : form) (terms : string) : form :=
  {| business_unit := business_unit f;
     supplier_name := supplier_name f;
     supplier_site := supplier_site f;
     invoice_number := invoice_number f;
     invoice_amount := invoice_amount f;
     invoice_date := invoice_date f;
     invoice_currency := invoice_currency f;
     payment_terms := terms;
     invoice_group := invoice_group f;
     description := description f;
     lines_data := lines_data f |}.

(** Number of requests among the events. *)
Fixpoint count_posts (evs : list event) : nat :=
  match evs with
  | [] => O
  | post _ :: rest => S (count_posts rest)
  | _ :: rest => count_posts rest
  end.

(** The last character of [s] is a slash. *)
Fixpoint ends_with_slash (s : string) : bool :=
  match s with
  | EmptyString => false
  | String c EmptyString => Ascii.eqb c "/"
  | String _ rest => ends_with_slash rest
  end.

(** [s] is made of slashes only. *)
Fixpoint all_slashes (s : string) : bool :=
  match s with
  | EmptyString => true
  | String c rest => Ascii.eqb c "/" && all_slashes rest
  end.

(** [pat in s]: the text [pat] occurs in [s]. *)
Fixpoint occurs (pat s : string) : bool :=
  String.prefix pat s ||
  match s with
  | EmptyString => false
  | String _ rest => occurs pat rest
  end.

(** The keys the form reads from the candidate and from its line
    items. *)
Definition candidate_keys : list string :=
  ["supplier_name"; "invoice_number"; "invoice_amount"; "invoice_date";
   "currency"; "description"; "line_items"; "amount"].

(** * Properties *)

(** ** Binary64: comparisons and NaN-freedom *)

Module F64Facts.
Import F64.

Lemma compare_antisym (x y : float) :
  SFcompare y x = option_map CompOpp (SFcompare x y).
Proof.
  destruct x as [sx|sx| |sx mx ex], y as [sy|sy| |sy my ey]; simpl;
    try reflexivity;
    try (destruct sx; reflexivity);
    try (destruct sy; reflexivity);
    try (destruct sx, sy; reflexivity).
  destruct sx, sy; simpl; try reflexivity;
    rewrite (Z.compare_antisym ex ey);
    destruct (ex ?= ey)%Z; simpl; try reflexivity;
    rewrite (Pos.compare_cont_antisym mx my Eq); simpl;
    destruct (Pos.compare_cont Eq mx my); reflexivity.
Qed.

Lemma compare_not_nan (x y : float) :
  is_nan x = false -> is_nan y = false -> SFcompare x y <> None.
Proof.
  destruct x, y; simpl; congruence.
Qed.

(** Away from NaN, [y < x] is the negation of [x <= y]. *)
Lemma ltb_negb_leb (x y : float) :
  is_nan x = false -> is_nan y = false -> ltb y x = negb (leb x y).
Proof.
  intros Hx Hy. unfold ltb, leb, SFltb, SFleb.
  rewrite (compare_antisym x y).
  pose proof (compare_not_nan x y Hx Hy) as Hc.
  destruct (SFcompare x y) as [[ | | ]|]; simpl; congruence.
Qed.

Lemma abs_is_nan (x : float) : is_nan (abs x) = is_nan x.
Proof. destruct x; reflexivity. Qed.

Lemma shr_1_nonneg (mrs : shr_record) :
  0 <= shr_m mrs -> 0 <= shr_m (shr_1 mrs).
Proof.
  destruct mrs as [m r s]; simpl.
  destruct m as [|[p|p|]|[p|p|]]; simpl; lia.
Qed.

Lemma iter_shr_1_nonneg (p : positive) (mrs : shr_record) :
  0 <= shr_m mrs -> 0 <= shr_m (iter_pos shr_1 p mrs).
Proof.
  revert mrs.
  induction p as [p IH|p IH|]; intros mrs H; simpl.
  - apply IH, IH, shr_1_nonneg, H.
  - apply IH, IH, H.
  - apply shr_1_nonneg, H.
Qed.

Lemma shr_fexp_nonneg (m e : Z) (l : location) :
  0 <= m -> 0 <= shr_m (fst (shr_fexp prec emax m e l)).
Proof.
  intros Hm. unfold shr_fexp, shr.
  assert (H0 : 0 <= shr_m (shr_record_of_loc m l))
    by (destruct l as [|[ | | ]]; simpl; exact Hm).
  destruct (fexp prec emax (Zdigits2 m + e) - e) as [|p|p]; simpl;
    try exact H0.
  apply iter_shr_1_nonneg, H0.
Qed.

Lemma round_nearest_even_nonneg (m : Z) (l : location) :
  0 <= m -> 0 <= round_nearest_even m l.
Proof.
  intros Hm. destruct l as [|[ | | ]]; simpl; try lia.
  destruct (Z.even m); lia.
Qed.

(** Rounding a non-negative mantissa never gives a NaN. *)
Lemma binary_round_aux_not_nan (s : bool) (m e : Z) (l : location) :
  0 <= m -> is_nan (binary_round_aux prec emax s m e l) = false.
Proof.
  intros Hm. unfold binary_round_aux.
  pose proof (shr_fexp_nonneg m e l Hm) as H1.
  destruct (shr_fexp prec emax m e l) as [mrs' e'] eqn:E1. simpl in H1.
  pose proof (shr_fexp_nonneg
                (round_nearest_even (shr_m mrs') (loc_of_shr_record mrs'))
                e' loc_Exact
                (round_nearest_even_nonneg _ _ H1)) as H2.
  destruct (shr_fexp prec emax _ e' loc_Exact) as [mrs'' e''] eqn:E2.
  simpl in H2.
  destruct (shr_m mrs'') as [|p|p]; try reflexivity.
  - destruct (e'' <=? emax - prec); reflexivity.
  - lia.
Qed.

Lemma binary_normalize_not_nan (m e : Z) (szero : bool) :
  is_nan (binary_normalize prec emax m e szero) = false.
Proof.
  destruct m as [|p|p]; simpl; try reflexivity;
    unfold binary_round;
    destruct (shl_align p e _) as [mz ez];
    apply binary_round_aux_not_nan; lia.
Qed.

(** Adding a finite number to anything but a NaN does not give a NaN. *)
Lemma add_not_nan (x y : float) :
  is_nan x = false -> is_finite y = true -> is_nan (add x y) = false.
Proof.
  intros Hx Hy. unfold add.
  destruct x as [sx|sx| |sx mx ex], y as [sy|sy| |sy my ey];
    simpl in *; try congruence; try reflexivity.
  - destruct sx, sy; reflexivity.
  - apply binary_normalize_not_nan.
Qed.

Lemma sub_not_nan (x y : float) :
  is_nan x = false -> is_finite y = true -> is_nan (sub x y) = false.
Proof.
  intros Hx Hy. unfold sub.
  destruct x as [sx|sx| |sx mx ex], y as [sy|sy| |sy my ey];
    simpl in *; try congruence; try reflexivity.
  - destruct sx, sy; reflexivity.
  - apply binary_normalize_not_nan.
Qed.

Lemma finite_not_nan (x : float) : is_finite x = true -> is_nan x = false.
Proof. destruct x; simpl; congruence. Qed.

End F64Facts.

(** ** The sum of finite amounts is never a NaN *)

Section SumFacts.
Import F64 F64Facts.

Lemma fold_add_not_nan (xs : list float) (acc : float) :
  all_finite xs -> is_nan acc = false ->
  is_nan (fold_left add xs acc) = false.
Proof.
  intros Hxs. revert acc.
  induction Hxs as [|x xs Hx _ IH]; intros acc Hacc; simpl.
  - exact Hacc.
  - apply IH, add_not_nan; assumption.
Qed.

Lemma sum_neumaier_not_nan (xs : list float) (f_result c : float) :
  all_finite xs -> is_nan f_result = false ->
  is_nan (sum_neumaier f_result c xs) = false.
Proof.
  intros Hxs. revert f_result c.
  induction Hxs as [|x xs Hx _ IH]; intros f_result c Hf; simpl.
  - destruct (nonzero c); simpl; try exact Hf.
    destruct (is_finite c) eqn:Hc; try exact Hf.
    apply add_not_nan; assumption.
  - apply IH, add_not_nan; assumption.
Qed.

Lemma py_sum_not_nan (compensated : bool) (xs : list float) :
  all_finite xs -> is_nan (py_sum compensated xs) = false.
Proof.
  intros Hxs. destruct compensated; unfold py_sum.
  - destruct Hxs as [|x xs Hx Hxs]; [reflexivity|].
    unfold sum_compensated.
    apply sum_neumaier_not_nan; try assumption.
    apply add_not_nan; [reflexivity | assumption].
  - apply fold_add_not_nan; [assumption | reflexivity].
Qed.

End SumFacts.

(** ** Validation at submission *)

Lemma str_truthy_iff (s : string) : str_truthy s = true <-> s <> EmptyString.
Proof.
  unfold str_truthy. destruct (String.eqb_spec s EmptyString); simpl;
    split; congruence.
Qed.

Lemma forallb_str_truthy (l : list string) :
  forallb str_truthy l = true <-> Forall (fun s => s <> EmptyString) l.
Proof.
  rewrite forallb_forall, Forall_forall.
  split; intros H s Hs; apply str_truthy_iff, H, Hs.
Qed.

Lemma rule1_iff (sb : sidebar) (f : form) :
  forallb str_truthy (required_fields sb f) = true <-> rule1 sb f.
Proof. apply forallb_str_truthy. Qed.

Lemma rule2_iff (f : form) :
  F64.is_finite (invoice_amount f) = true ->
  amount_not_positive f = false <-> rule2 f.
Proof.
  intros Hfin. unfold amount_not_positive, rule2.
  rewrite (F64Facts.ltb_negb_leb (invoice_amount f) (F64.of_Z 0)).
  - destruct (F64.leb (invoice_amount f) (F64.of_Z 0)); simpl;
      split; congruence.
  - apply F64Facts.finite_not_nan, Hfin.
  - reflexivity.
Qed.

Lemma sum_difference_not_nan (env : Env) (f : form) :
  finite_amounts f -> F64.is_nan (sum_difference env f) = false.
Proof.
  intros [Hamt Hlines]. unfold sum_difference.
  rewrite F64Facts.abs_is_nan.
  apply F64Facts.sub_not_nan; [apply py_sum_not_nan, Hlines | exact Hamt].
Qed.

Lemma rule3_iff (env : Env) (f : form) :
  finite_amounts f -> sum_mismatch env f = false <-> rule3 env f.
Proof.
  intros Hfin. unfold rule3.
  change (sum_mismatch env f) with (F64.ltb tolerance (sum_difference env f)).
  rewrite (F64Facts.ltb_negb_leb (sum_difference env f) tolerance).
  - destruct (F64.leb (sum_difference env f) tolerance); simpl;
      split; congruence.
  - apply sum_difference_not_nan, Hfin.
  - reflexivity.
Qed.

Lemma rule4_iff (f : form) : all_dist_comb f = true <-> rule4 f.
Proof.
  unfold all_dist_comb, rule4.
  rewrite forallb_forall, Forall_forall.
  split; intros H l Hl; apply str_truthy_iff, H, Hl.
Qed.

Lemma only_error_no_payload (msg : string) :
  ~ builds_payload [st_error msg] /\ ~ issues_request [st_error msg].
Proof.
  split; intros [x [H|[]]]; discriminate H.
Qed.

(** The chain stopped on one message: each of the five parts of the
    statement holds by reading it off, by a rule that failed, or because a
    lone error report carries no payload and no request. *)
Ltac halted :=
  refine (conj _ (conj _ (conj _ (conj _ _))));
  intros; first [reflexivity | tauto | apply only_error_no_payload].

(** C1: the four rules are tested in the order required fields, positive
    amount, line sum within tolerance, distribution combinations; the
    first rule that fails gives its own message and nothing else, and
    whenever a rule fails no payload is built and no request is sent. *)
Theorem validation_first_failure_halts (env : Env) (sb : sidebar) (f : form) :
  finite_amounts f ->
  (~ rule1 sb f ->
   create_invoice env sb f =
   [st_error "❌ Please fill in all required fields marked with *"]) /\
  (rule1 sb f -> ~ rule2 f ->
   create_invoice env sb f =
   [st_error "❌ Invoice amount must be greater than 0"]) /\
  (rule1 sb f -> rule2 f -> ~ rule3 env f ->
   create_invoice env sb f =
   [st_error "❌ Sum of line amounts must equal invoice amount"]) /\
  (rule1 sb f -> rule2 f -> rule3 env f -> ~ rule4 f ->
   create_invoice env sb f =
   [st_error "❌ All lines must have distribution combinations"]) /\
  (~ (rule1 sb f /\ rule2 f /\ rule3 env f /\ rule4 f) ->
   ~ builds_payload (create_invoice env sb f) /\
   ~ issues_request (create_invoice env sb f)).
Proof.
  intros Hfin.
  pose proof (rule1_iff sb f) as H1.
  pose proof (rule2_iff f (proj1 Hfin)) as H2.
  pose proof (rule3_iff env f Hfin) as H3.
  pose proof (rule4_iff f) as H4.
  unfold create_invoice.
  destruct (forallb str_truthy (required_fields sb f)) eqn:E1; simpl.
  - assert (R1 : rule1 sb f) by (apply H1; reflexivity).
    destruct (amount_not_positive f) eqn:E2.
    { assert (N2 : ~ rule2 f) by (intros R; apply H2 in R; discriminate R).
      halted. }
    assert (R2 : rule2 f) by (apply H2; reflexivity).
    destruct (sum_mismatch env f) eqn:E3.
    { assert (N3 : ~ rule3 env f)
        by (intros R; apply H3 in R; discriminate R).
      halted. }
    assert (R3 : rule3 env f) by (apply H3; reflexivity).
    destruct (all_dist_comb f) eqn:E4; simpl.
    + assert (R4 : rule4 f) by (apply H4; reflexivity).
      refine (conj _ (conj _ (conj _ (conj _ _)))); intros; tauto.
    + assert (N4 : ~ rule4 f) by (intros R; apply H4 in R; discriminate R).
      halted.
  - assert (N1 : ~ rule1 sb f) by (intros R; apply H1 in R; discriminate R).
    halted.
Qed.

Lemma validation_first_failure_halts_witness :
  create_invoice (sample_env (ret sample_reply) (ret created)) sample_sidebar
    (sample_form (F64.of_Z 100)
       [ {| amount := F64.of_Z 30; dist_comb := "A" |};
         {| amount := F64.decimal 700000001 7; dist_comb := EmptyString |} ])
  = [st_error "❌ All lines must have distribution combinations"].
Proof.
  refine (proj1 (proj2 (proj2 (proj2
            (validation_first_failure_halts _ _ _ _)))) _ _ _ _).
  - split; [reflexivity | repeat constructor].
  - repeat constructor; discriminate.
  - vm_compute; reflexivity.
  - vm_compute; reflexivity.
  - intros R. apply rule4_iff in R. discriminate R.
Defined.

(** C2: rule 3 passes exactly when the absolute difference between the
    sum of the line amounts and the invoice amount is at most 1e-6; lines
    of 30 and 70.0000001 pass against an invoice amount of 100 and fail
    against 99, whichever way the interpreter sums. *)
Theorem line_sum_within_tolerance :
  (forall env f,
     finite_amounts f ->
     sum_mismatch env f = false <->
     F64.leb (sum_difference env f) tolerance = true) /\
  (forall env f,
     map amount (lines_data f) = [F64.of_Z 30; F64.decimal 700000001 7] ->
     invoice_amount f = F64.of_Z 100 ->
     sum_mismatch env f = false) /\
  (forall env f,
     map amount (lines_data f) = [F64.of_Z 30; F64.decimal 700000001 7] ->
     invoice_amount f = F64.of_Z 99 ->
     sum_mismatch env f = true).
Proof.
  split; [|split].
  - intros env f Hfin. apply rule3_iff, Hfin.
  - intros env f Hl Ha. unfold sum_mismatch. rewrite Hl, Ha.
    destruct (compensated_sum env); vm_compute; reflexivity.
  - intros env f Hl Ha. unfold sum_mismatch. rewrite Hl, Ha.
    destruct (compensated_sum env); vm_compute; reflexivity.
Qed.

Lemma line_sum_within_tolerance_witness :
  sum_mismatch (sample_env (ret sample_reply) (ret created))
    (sample_form (F64.of_Z 100) sample_lines) = false /\
  sum_mismatch (sample_env (ret sample_reply) (ret created))
    (sample_form (F64.of_Z 99) sample_lines) = true.
Proof.
  split.
  - apply (proj1 line_sum_within_tolerance).
    + split; [reflexivity | repeat constructor].
    + vm_compute; reflexivity.
  - apply (proj2 (proj2 line_sum_within_tolerance)); reflexivity.
Defined.

(** ** Dates are written as they are read *)

Lemma in_range_list (lo hi z : Z) :
  lo <= z <= hi -> In z (range lo hi).
Proof.
  intros H. unfold range. apply in_map_iff.
  exists (Z.to_nat (z - lo)). split; [lia|].
  apply in_seq. lia.
Qed.

Lemma years_read_back : forallb year_text_ok (range 1 9999) = true.
Proof. vm_compute. reflexivity. Qed.

Lemma months_days_read_back :
  forallb (fun m => forallb (month_day_text_ok m) (range 1 31)) (range 1 12)
  = true.
Proof. vm_compute. reflexivity. Qed.

Lemma year_group_written (y : Z) (rest : string) :
  1 <= y <= 9999 ->
  year_group (zero_pad 4 (string_of_Z y) ++ rest) = Some (y, rest).
Proof.
  intros Hy.
  pose proof (proj1 (forallb_forall _ _) years_read_back y
                (in_range_list 1 9999 y ltac:(lia))) as H.
  unfold year_text_ok in H.
  destruct (zero_pad 4 (string_of_Z y)) as [|a [|b [|c [|d [|? ?]]]]];
    try discriminate H.
  apply andb_prop in H as [H Hv]. apply Z.eqb_eq in Hv.
  cbn [append]. unfold year_group. rewrite H, Hv. reflexivity.
Qed.

Lemma month_day_part_written (m d : Z) :
  1 <= m <= 12 -> 1 <= d <= 31 ->
  month_day_part ("-" ++ zero_pad 2 (string_of_Z m) ++ "-" ++
                  zero_pad 2 (string_of_Z d))
  = Some (m, d, EmptyString).
Proof.
  intros Hm Hd.
  pose proof (proj1 (forallb_forall _ _) months_days_read_back m
                (in_range_list 1 12 m ltac:(lia))) as H.
  pose proof (proj1 (forallb_forall _ _) H d
                (in_range_list 1 31 d ltac:(lia))) as H'.
  unfold month_day_text_ok in H'.
  destruct (month_day_part _) as [[[m' d'] [|? ?]]|]; try discriminate H'.
  apply andb_prop in H' as [H1 H2].
  apply Z.eqb_eq in H1, H2. subst. reflexivity.
Qed.

Lemma days_in_month_le (y m : Z) : days_in_month y m <= 31.
Proof.
  unfold days_in_month.
  repeat match goal with |- context [if ?b then _ else _] => destruct b end;
    lia.
Qed.

(** What [strftime] writes for a calendar date, [strptime] reads back as
    that date: the text has the form YYYY-MM-DD. *)
Lemma strptime_strftime (d : date) :
  valid_date d = true -> strptime_Ymd_ascii (strftime_Ymd d) = Some d.
Proof.
  destruct d as [y m dd]. intros Hv.
  pose proof Hv as Hv'. unfold valid_date in Hv'. simpl in Hv'.
  repeat (apply andb_prop in Hv' as [Hv' ?]).
  pose proof (days_in_month_le y m).
  unfold strptime_Ymd_ascii, strftime_Ymd. simpl year; simpl month; simpl day.
  rewrite year_group_written by lia.
  rewrite month_day_part_written by lia.
  rewrite Hv. reflexivity.
Qed.

(** ** The payload *)

Lemma nth_error_enumerate_from {A} (l : list A) (start : Z) (i : nat) :
  nth_error (enumerate_from start l) i =
  option_map (fun x => (start + Z.of_nat i, x)) (nth_error l i).
Proof.
  revert start i.
  induction l as [|x l IH]; intros start [|i]; simpl; try reflexivity.
  - rewrite Z.add_0_r. reflexivity.
  - rewrite IH. destruct (nth_error l i); simpl; [|reflexivity].
    do 2 f_equal. lia.
Qed.

Lemma length_enumerate_from {A} (l : list A) (start : Z) :
  List.length (enumerate_from start l) = List.length l.
Proof.
  revert start. induction l as [|x l IH]; intros start; simpl; congruence.
Qed.

Lemma invoice_lines_nth (f : form) (i : nat) (l : line) :
  nth_error (lines_data f) i = Some l ->
  nth_error (invoice_lines f) i =
  Some {| LineNumber := Z.of_nat i + 1;
          LineAmount := amount l;
          AccountingDate := strftime_Ymd (invoice_date f);
          DistributionCombination := dist_comb l |}.
Proof.
  intros H. unfold invoice_lines, enumerate.
  rewrite nth_error_map, nth_error_enumerate_from, H. reflexivity.
Qed.

Lemma create_invoice_validated (env : Env) (sb : sidebar) (f : form) :
  validation_passes env sb f = true ->
  create_invoice env sb f = submit env sb f.
Proof.
  unfold validation_passes, create_invoice. intros H.
  apply andb_prop in H as [H H4]. apply andb_prop in H as [H H3].
  apply andb_prop in H as [H1 H2].
  rewrite H1, H4. simpl.
  apply negb_true_iff in H2, H3. rewrite H2, H3. reflexivity.
Qed.

Lemma invoice_lines_date (f : form) (lp : line_payload) :
  In lp (invoice_lines f) ->
  AccountingDate lp = strftime_Ymd (invoice_date f).
Proof.
  unfold invoice_lines. intros H. apply in_map_iff in H as [[idx l] [<- _]].
  reflexivity.
Qed.

(** C3: for a form that passes validation the payload is built and sent;
    its lines follow the rows of the form in order, row [i] (counted from
    one) is numbered [i], and every line carries the one header invoice
    date, written YYYY-MM-DD: the text of the header's InvoiceDate, which
    reads back as the header date. *)
Theorem payload_lines_in_order (env : Env) (sb : sidebar) (f : form) :
  validation_passes env sb f = true ->
  (exists shown,
     create_invoice env sb f =
     st_json_payload (build_payload f) ::
     post (build_request sb (build_payload f)) :: shown) /\
  json (build_request sb (build_payload f)) = build_payload f /\
  List.length (invoiceLines (build_payload f)) = List.length (lines_data f) /\
  (forall (i : nat) (l : line),
     nth_error (lines_data f) i = Some l ->
     nth_error (invoiceLines (build_payload f)) i =
     Some {| LineNumber := Z.of_nat i + 1;
             LineAmount := amount l;
             AccountingDate := strftime_Ymd (invoice_date f);
             DistributionCombination := dist_comb l |}) /\
  (forall lp,
     In lp (invoiceLines (build_payload f)) ->
     AccountingDate lp = InvoiceDate (build_payload f)) /\
  (valid_date (invoice_date f) = true ->
   strptime_Ymd_ascii (InvoiceDate (build_payload f))
   = Some (invoice_date f)).
Proof.
  intros Hv.
  split; [|split; [|split; [|split; [|split]]]].
  - rewrite (create_invoice_validated env sb f Hv). unfold submit.
    eexists. reflexivity.
  - reflexivity.
  - simpl. unfold invoice_lines, enumerate.
    rewrite length_map. apply length_enumerate_from.
  - intros i l H. simpl. apply invoice_lines_nth, H.
  - intros lp H. simpl in *. apply invoice_lines_date, H.
  - intros Hd. simpl. apply strptime_strftime, Hd.
Qed.

Lemma payload_lines_in_order_witness :
  nth_error
    (invoiceLines
       (build_payload
          (sample_form (F64.of_Z 100)
             [ {| amount := F64.of_Z 20; dist_comb := "L1" |};
               {| amount := F64.of_Z 30; dist_comb := "L2" |};
               {| amount := F64.of_Z 50; dist_comb := "L3" |} ]))) 2
  = Some {| LineNumber := 3;
            LineAmount := F64.of_Z 50;
            AccountingDate := "2024-02-13";
            DistributionCombination := "L3" |}.
Proof.
  refine (proj1 (proj2 (proj2 (proj2
    (payload_lines_in_order
       (sample_env (ret sample_reply) (ret created)) sample_sidebar
       (sample_form (F64.of_Z 100)
          [ {| amount := F64.of_Z 20; dist_comb := "L1" |};
            {| amount := F64.of_Z 30; dist_comb := "L2" |};
            {| amount := F64.of_Z 50; dist_comb := "L3" |} ]) _))))
    2%nat {| amount := F64.of_Z 50; dist_comb := "L3" |} _).
  - vm_compute; reflexivity.
  - reflexivity.
Defined.

(** ** The answer of the ERP *)


Lemma success_then_error_report (env : Env) (sb : sidebar) (f : form)
      (resp : response) (e : exn) :
  requests_post env (build_request sb (build_payload f)) = inr resp ->
  status_code resp = 200 \/ status_code resp = 201 ->
  response_json resp = inl e ->
  submit env sb f =
  [st_json_payload (build_payload f);
   post (build_request sb (build_payload f));
   st_success "🎉 Invoice created successfully in Oracle Fusion!";
   submit_except e].
Proof.
  intros Hpost Hst He. unfold submit. rewrite Hpost.
  destruct Hst as [-> | ->]; simpl; rewrite He; reflexivity.
Qed.




(** ** The brace span of a reply *)

Lemma append_assoc3 (a b c : string) : (a ++ b) ++ c = a ++ b ++ c.
Proof. induction a as [|x a IH]; simpl; congruence. Qed.

Lemma contains_append (c : ascii) (a b : string) :
  contains c (a ++ b) = contains c a || contains c b.
Proof.
  induction a as [|x a IH]; simpl; [reflexivity|].
  rewrite IH. apply orb_assoc.
Qed.

Lemma match_dotstar_close_none (s : string) :
  contains "}" s = false -> match_dotstar_close s = None.
Proof.
  induction s as [|c s IH]; simpl; [reflexivity|].
  intros H. apply orb_false_elim in H as [Hc Hs].
  rewrite (IH Hs), Hc. reflexivity.
Qed.

(** The greedy match runs to the last closing brace. *)
Lemma match_dotstar_close_last (body post : string) :
  contains "}" post = false ->
  match_dotstar_close (body ++ "}" ++ post) = Some (body ++ "}").
Proof.
  intros Hpost. induction body as [|c body IH]; simpl.
  - rewrite (match_dotstar_close_none post Hpost). reflexivity.
  - simpl in IH. rewrite IH. reflexivity.
Qed.

Lemma match_dotstar_close_some (s m : string) :
  match_dotstar_close s = Some m ->
  exists body post,
    s = body ++ "}" ++ post /\ m = body ++ "}" /\ contains "}" post = false.
Proof.
  revert m. induction s as [|c s IH]; simpl; intros m H; [discriminate|].
  destruct (match_dotstar_close s) as [m'|] eqn:E.
  - injection H as <-.
    destruct (IH m' eq_refl) as (body & post & -> & -> & Hp).
    exists (String c body), post. repeat split; assumption.
  - destruct (Ascii.eqb_spec c "}") as [->|]; [|discriminate].
    injection H as <-.
    exists EmptyString, s. repeat split.
    clear IH. induction s as [|a s IHs]; [reflexivity|].
    simpl in E |- *.
    destruct (match_dotstar_close s); [discriminate|].
    destruct (Ascii.eqb a "}"); [discriminate|]. apply IHs. reflexivity.
Qed.

(** The search starts at the first opening brace. *)
Lemma json_match_first_to_last (pre body post : string) :
  contains "{" pre = false -> contains "}" post = false ->
  json_match (pre ++ ("{" ++ body ++ "}") ++ post) = Some ("{" ++ body ++ "}").
Proof.
  intros Hpre Hpost. induction pre as [|c pre IH]; simpl.
  - rewrite append_assoc3.
    rewrite (match_dotstar_close_last body post Hpost). reflexivity.
  - simpl in Hpre. apply orb_false_elim in Hpre as [Hc Hpre].
    rewrite Hc. apply IH, Hpre.
Qed.

Lemma json_match_some (s m : string) :
  json_match s = Some m -> first_to_last_brace s m.
Proof.
  induction s as [|c s IH]; simpl; intros H; [discriminate|].
  destruct (Ascii.eqb_spec c "{") as [->|Hc].
  - destruct (match_dotstar_close s) as [m'|] eqn:E.
    + injection H as <-.
      destruct (match_dotstar_close_some s m' E) as (body & post & -> & -> & Hp).
      exists EmptyString, body, post. simpl. rewrite append_assoc3.
      repeat split. exact Hp.
    + destruct (IH H) as (pre & body & post & -> & -> & Hpre & Hpost).
      exfalso.
      assert (Hin : contains "}" (pre ++ ("{" ++ body ++ "}") ++ post) = true).
      { rewrite !contains_append. simpl.
        rewrite !orb_true_r. reflexivity. }
      assert (Hnone : forall t, match_dotstar_close t = None ->
                                contains "}" t = false).
      { clear. induction t as [|a t IHt]; simpl; [reflexivity|].
        destruct (match_dotstar_close t); [discriminate|].
        destruct (Ascii.eqb a "}"); [discriminate|].
        intros _. apply IHt. reflexivity. }
      rewrite (Hnone _ E) in Hin. discriminate Hin.
  - destruct (IH H) as (pre & body & post & -> & -> & Hpre & Hpost).
    exists (String c pre), body, post. repeat split; try assumption.
    simpl. apply Ascii.eqb_neq in Hc. rewrite Hc, Hpre. reflexivity.
Qed.

Lemma json_match_iff (reply span : string) :
  json_match reply = Some span <-> first_to_last_brace reply span.
Proof.
  split; [apply json_match_some|].
  intros (pre & body & post & -> & -> & Hpre & Hpost).
  apply json_match_first_to_last; assumption.
Qed.

Lemma json_match_no_open (reply : string) :
  contains "{" reply = false -> json_match reply = None.
Proof.
  induction reply as [|c s IH]; simpl; [reflexivity|].
  intros H. apply orb_false_elim in H as [Hc Hs].
  rewrite Hc. apply IH, Hs.
Qed.

Lemma auto_extract_parsed (env : Env) (sb : sidebar) (st : session)
      (reply span : string) (v : pyval) :
  chat_complete env (mistral_api_key sb) (extraction_prompt st) = inr reply ->
  json_match reply = Some span ->
  json_loads env span = inr v ->
  auto_extract env sb st =
  (set_extracted_data st v, [st_success "✅ Invoice data extracted successfully!"]).
Proof.
  intros Hc Hm Hj. unfold auto_extract, bind. rewrite Hc, Hm, Hj. reflexivity.
Qed.

Lemma auto_extract_invalid_json (env : Env) (sb : sidebar) (st : session)
      (reply span : string) (e : exn) :
  chat_complete env (mistral_api_key sb) (extraction_prompt st) = inr reply ->
  json_match reply = Some span ->
  json_loads env span = inl e ->
  auto_extract env sb st =
  (st, [st_error ("❌ Error extracting data: " ++ exn_str e)]).
Proof.
  intros Hc Hm Hj. unfold auto_extract, bind. rewrite Hc, Hm, Hj. reflexivity.
Qed.

Lemma auto_extract_no_span (env : Env) (sb : sidebar) (st : session)
      (reply : string) :
  chat_complete env (mistral_api_key sb) (extraction_prompt st) = inr reply ->
  json_match reply = None ->
  auto_extract env sb st = (st, [st_error "❌ Could not parse extracted data"]).
Proof.
  intros Hc Hm. unfold auto_extract, bind. rewrite Hc, Hm. reflexivity.
Qed.

Lemma auto_extract_service_error (env : Env) (sb : sidebar) (st : session)
      (e : exn) :
  chat_complete env (mistral_api_key sb) (extraction_prompt st) = inl e ->
  auto_extract env sb st =
  (st, [st_error ("❌ Error extracting data: " ++ exn_str e)]).
Proof.
  intros Hc. unfold auto_extract, bind. rewrite Hc. reflexivity.
Qed.

(** ** The Field Extractor *)

(** C4: the span the extractor takes from a reply is the text from the
    first opening brace to the last closing brace, whatever lies between
    (two objects side by side are taken as one span); that span is what
    [json.loads] is given, and its result is stored as the candidate as it
    is.  So a reply with one JSON object and no brace around it yields the
    value of that object, field by field. *)
Theorem greedy_span_is_parsed :
  (forall reply span,
     json_match reply = Some span <-> first_to_last_brace reply span) /\
  (forall env sb st reply span,
     chat_complete env (mistral_api_key sb) (extraction_prompt st)
       = inr reply ->
     json_match reply = Some span ->
     (forall v,
        json_loads env span = inr v ->
        auto_extract env sb st =
        (set_extracted_data st v,
         [st_success "✅ Invoice data extracted successfully!"])) /\
     (forall e,
        json_loads env span = inl e ->
        auto_extract env sb st =
        (st, [st_error ("❌ Error extracting data: " ++ exn_str e)]))) /\
  (forall env sb st pre body post v,
     chat_complete env (mistral_api_key sb) (extraction_prompt st)
       = inr (pre ++ ("{" ++ body ++ "}") ++ post) ->
     contains "{" pre = false -> contains "}" post = false ->
     json_loads env ("{" ++ body ++ "}") = inr v ->
     extracted_data (fst (auto_extract env sb st)) = v /\
     forall key default,
       py_get (extracted_data (fst (auto_extract env sb st))) key default
       = py_get v key default) /\
  json_match "{a} and {b}" = Some "{a} and {b}".
Proof.
  split; [exact json_match_iff|]. split; [|split].
  - intros env sb st reply span Hc Hm. split.
    + intros v Hj. exact (auto_extract_parsed env sb st reply span v Hc Hm Hj).
    + intros e Hj.
      exact (auto_extract_invalid_json env sb st reply span e Hc Hm Hj).
  - intros env sb st pre body post v Hc Hpre Hpost Hj.
    pose proof (json_match_first_to_last pre body post Hpre Hpost) as Hm.
    rewrite (auto_extract_parsed env sb st _ _ v Hc Hm Hj). simpl.
    split; [reflexivity | intros; reflexivity].
  - reflexivity.
Qed.

Lemma greedy_span_is_parsed_witness :
  auto_extract (sample_env (ret sample_reply) (ret created)) sample_sidebar
    initial_session
  = (set_extracted_data initial_session sample_object,
     [st_success "✅ Invoice data extracted successfully!"]).
Proof.
  refine (proj1 (proj1 (proj2 greedy_span_is_parsed)
                   (sample_env (ret sample_reply) (ret created))
                   sample_sidebar initial_session
                   sample_reply sample_object_text _ _)
            sample_object _).
  - reflexivity.
  - vm_compute; reflexivity.
  - vm_compute; reflexivity.
Defined.

(** C5: when the search finds no span, as when the reply has no opening
    brace at all, the extractor reports that it could not parse the
    extracted data, and the session, prior candidate included, is as it
    was. *)
Theorem no_span_is_parse_error :
  (forall reply, contains "{" reply = false -> json_match reply = None) /\
  (forall env sb st reply,
     chat_complete env (mistral_api_key sb) (extraction_prompt st)
       = inr reply ->
     json_match reply = None ->
     auto_extract env sb st =
     (st, [st_error "❌ Could not parse extracted data"])).
Proof.
  split; [exact json_match_no_open | exact auto_extract_no_span].
Qed.

Lemma no_span_is_parse_error_witness :
  auto_extract (sample_env (ret "No invoice found.") (ret created))
    sample_sidebar
    {| ocr_result := Some "INVOICE 7"; extracted_data := sample_object;
       pdf_processed := true |}
  = ({| ocr_result := Some "INVOICE 7"; extracted_data := sample_object;
        pdf_processed := true |},
     [st_error "❌ Could not parse extracted data"]).
Proof.
  refine (proj2 no_span_is_parse_error
            (sample_env (ret "No invoice found.") (ret created))
            sample_sidebar _ "No invoice found." _ _).
  - reflexivity.
  - apply (proj1 no_span_is_parse_error). reflexivity.
Defined.

(** C10: whatever way the extraction fails (the chat call raises, a span
    is found but [json.loads] rejects it, or no span is found) the session
    stays exactly as it was, OCR text and prior candidate included; the
    candidate changes only when [json.loads] accepts the span, and then it
    becomes the parsed value while the rest of the session stays. *)
Theorem extraction_all_or_nothing (env : Env) (sb : sidebar) (st : session) :
  ocr_result (fst (auto_extract env sb st)) = ocr_result st /\
  pdf_processed (fst (auto_extract env sb st)) = pdf_processed st /\
  ((exists reply span v,
      chat_complete env (mistral_api_key sb) (extraction_prompt st)
        = inr reply /\
      json_match reply = Some span /\
      json_loads env span = inr v /\
      auto_extract env sb st =
      (set_extracted_data st v,
       [st_success "✅ Invoice data extracted successfully!"]))
   \/
   (fst (auto_extract env sb st) = st /\
    exists msg, snd (auto_extract env sb st) = [st_error msg])) /\
  (forall e,
     chat_complete env (mistral_api_key sb) (extraction_prompt st) = inl e ->
     fst (auto_extract env sb st) = st) /\
  (forall reply span e,
     chat_complete env (mistral_api_key sb) (extraction_prompt st)
       = inr reply ->
     json_match reply = Some span -> json_loads env span = inl e ->
     fst (auto_extract env sb st) = st) /\
  (forall reply,
     chat_complete env (mistral_api_key sb) (extraction_prompt st)
       = inr reply ->
     json_match reply = None ->
     fst (auto_extract env sb st) = st).
Proof.
  assert (Hcases :
    (exists reply span v,
      chat_complete env (mistral_api_key sb) (extraction_prompt st)
        = inr reply /\
      json_match reply = Some span /\
      json_loads env span = inr v /\
      auto_extract env sb st =
      (set_extracted_data st v,
       [st_success "✅ Invoice data extracted successfully!"]))
    \/
    (fst (auto_extract env sb st) = st /\
     exists msg, snd (auto_extract env sb st) = [st_error msg])).
  { destruct (chat_complete env (mistral_api_key sb) (extraction_prompt st))
      as [e|reply] eqn:Hc.
    - right. rewrite (auto_extract_service_error env sb st e Hc).
      split; [reflexivity | eexists; reflexivity].
    - destruct (json_match reply) as [span|] eqn:Hm.
      + destruct (json_loads env span) as [e|v] eqn:Hj.
        * right. rewrite (auto_extract_invalid_json env sb st _ _ e Hc Hm Hj).
          split; [reflexivity | eexists; reflexivity].
        * left. exists reply, span, v. repeat split; try assumption.
          exact (auto_extract_parsed env sb st reply span v Hc Hm Hj).
      + right. rewrite (auto_extract_no_span env sb st reply Hc Hm).
        split; [reflexivity | eexists; reflexivity]. }
  assert (Hkeep : ocr_result (fst (auto_extract env sb st)) = ocr_result st /\
                  pdf_processed (fst (auto_extract env sb st))
                  = pdf_processed st).
  { destruct Hcases as [(reply & span & v & _ & _ & _ & ->) | [-> _]];
      split; reflexivity. }
  destruct Hkeep as [Hocr Hpdf].
  split; [exact Hocr|]. split; [exact Hpdf|]. split; [exact Hcases|].
  split; [|split].
  - intros e Hc. rewrite (auto_extract_service_error env sb st e Hc).
    reflexivity.
  - intros reply span e Hc Hm Hj.
    rewrite (auto_extract_invalid_json env sb st _ _ e Hc Hm Hj). reflexivity.
  - intros reply Hc Hm. rewrite (auto_extract_no_span env sb st reply Hc Hm).
    reflexivity.
Qed.

(** ** The values the form starts from *)

(** C6 at candidates whose amounts [float] does not accept: JSON null as
    invoice amount, text as invoice amount, text as the amount of a line
    item.  The claim has such a field start at 0 with no error.  The
    script calls [float] outside any [try]: computing the initial value
    raises and the field gets no value, zero or other.  The date field
    beside it, given a date it cannot read, does fall back. *)
Theorem uncoercible_amount_no_fallback :
  invoice_amount_value (sample_env (ret sample_reply) (ret created))
    (PDict [("invoice_amount", PNone)])
  = raise TypeError "float() argument must be a string or a real number" /\
  invoice_amount_value (sample_env (ret sample_reply) (ret created))
    (PDict [("invoice_amount", PStr "twelve hundred")])
  = raise ValueError "could not convert string to float" /\
  line_amount_value (sample_env (ret sample_reply) (ret created))
    (PList [PDict [("description", PStr "Consulting");
                   ("amount", PStr "n/a")]]) 0
  = raise ValueError "could not convert string to float" /\
  invoice_amount_value (sample_env (ret sample_reply) (ret created))
    (PDict [("invoice_amount", PNone)])
  <> ret F64.zero /\
  invoice_amount_value (sample_env (ret sample_reply) (ret created))
    (PDict [("invoice_amount", PStr "twelve hundred")])
  <> ret F64.zero /\
  line_amount_value (sample_env (ret sample_reply) (ret created))
    (PList [PDict [("description", PStr "Consulting");
                   ("amount", PStr "n/a")]]) 0
  <> ret F64.zero /\
  invoice_date_value (sample_env (ret sample_reply) (ret created))
    (PDict [("invoice_date", PStr "13/02/2024")])
  = ret (today (sample_env (ret sample_reply) (ret created))).
Proof.
  split; [reflexivity|]. split; [reflexivity|]. split; [reflexivity|].
  split; [discriminate|]. split; [discriminate|]. split; [discriminate|].
  reflexivity.
Qed.

(** C7: an absent invoice date, or one [strptime] does not accept, gives
    today's date as the initial value of the date field, and the form code
    goes on without raising; an accepted one gives the parsed date.  The
    text 13/02/2024 is one that the format %Y-%m-%d rejects. *)
Theorem invoice_date_fallback (env : Env) :
  strptime_Ymd env EmptyString = None ->
  (forall entries,
     lookup "invoice_date" entries = None ->
     invoice_date_value env (PDict entries) = ret (today env)) /\
  (forall entries v e,
     lookup "invoice_date" entries = Some v ->
     py_strptime env v = inl e ->
     invoice_date_value env (PDict entries) = ret (today env)) /\
  (forall entries s d,
     lookup "invoice_date" entries = Some (PStr s) ->
     strptime_Ymd env s = Some d ->
     invoice_date_value env (PDict entries) = ret d) /\
  (forall entries,
     strptime_Ymd env = strptime_Ymd_ascii ->
     lookup "invoice_date" entries = Some (PStr "13/02/2024") ->
     invoice_date_value env (PDict entries) = ret (today env)).
Proof.
  intros Hempty.
  assert (Hbad : forall entries v e,
             lookup "invoice_date" entries = Some v ->
             py_strptime env v = inl e ->
             invoice_date_value env (PDict entries) = ret (today env)).
  { intros entries v e H He. unfold invoice_date_value. simpl. rewrite H.
    unfold bind, ret. rewrite He. destruct (truthy v); reflexivity. }
  split; [|split; [exact Hbad|split]].
  - intros entries H. unfold invoice_date_value. simpl. rewrite H.
    reflexivity.
  - intros entries s d H Hd. unfold invoice_date_value. simpl. rewrite H.
    unfold bind, ret. simpl.
    destruct (String.eqb_spec s EmptyString) as [->|Hs].
    + rewrite Hempty in Hd. discriminate Hd.
    + simpl. rewrite Hd. reflexivity.
  - intros entries Hp H.
    apply (Hbad entries (PStr "13/02/2024")
                (Exn ValueError "time data does not match format") H).
    simpl. rewrite Hp. reflexivity.
Qed.

Lemma invoice_date_fallback_witness :
  invoice_date_value (sample_env (ret sample_reply) (ret created))
    sample_object
  = ret (Date 2026 11 4).
Proof.
  refine (proj2 (proj2 (proj2
    (invoice_date_fallback (sample_env (ret sample_reply) (ret created)) _)))
    [("invoice_number", PStr "INV-7"); ("invoice_date", PStr "13/02/2024")]
    _ _).
  - reflexivity.
  - reflexivity.
  - reflexivity.
Defined.

(** The default row count where the candidate has at most ten line
    items: their number, and one when there is none. *)
Lemma num_lines_of_list (entries : list (string * pyval))
      (items : list pyval) (total : float) :
  lookup "line_items" entries = Some (PList items) ->
  (List.length items <= 10)%nat ->
  num_lines_of (PDict entries) total =
  ret {| min_value := 1; max_value := Some 10;
         value := clamp 1 10 (Z.of_nat (List.length items)) |}.
Proof.
  intros H Hlen. unfold num_lines_of, extracted_lines. simpl. rewrite H.
  destruct items as [|x items].
  - reflexivity.
  - unfold truthy, negb, num_lines_input, py_len, bind, ret.
    do 2 f_equal. unfold clamp.
    change (List.length (x :: items)) with (S (List.length items)) in *.
    lia.
Qed.

(** Without line items a single line is seeded from the header amount. *)
Lemma extracted_lines_seeded (entries : list (string * pyval))
      (total : float) :
  lookup "line_items" entries = None \/
  lookup "line_items" entries = Some (PList []) ->
  extracted_lines (PDict entries) total =
  ret (PList [PDict [("description", PStr "Service");
                     ("amount", PFloat total)]]).
Proof.
  intros [H|H]; unfold extracted_lines; simpl; rewrite H; reflexivity.
Qed.

(** C8 at a candidate with eleven line items: the script hands the input
    the default 11 together with the maximum 10; the count clamped to
    [1, 10] would be 10. *)
Theorem line_count_default_exceeds_maximum :
  num_lines_of (PDict [("line_items", PList eleven_items)]) (F64.of_Z 100)
  = ret {| min_value := 1; max_value := Some 10; value := 11 |} /\
  clamp 1 10 (Z.of_nat (List.length eleven_items)) = 10.
Proof.
  split; reflexivity.
Qed.

Lemma extraction_all_or_nothing_witness :
  fst (auto_extract
         (sample_env (raise OtherException "API error occurred: 401")
                     (ret created))
         sample_sidebar
         {| ocr_result := Some "INVOICE 7"; extracted_data := sample_object;
            pdf_processed := true |})
  = {| ocr_result := Some "INVOICE 7"; extracted_data := sample_object;
       pdf_processed := true |}.
Proof.
  refine (proj1 (proj2 (proj2 (proj2
    (extraction_all_or_nothing
       (sample_env (raise OtherException "API error occurred: 401")
                   (ret created))
       sample_sidebar _))))
    (Exn OtherException "API error occurred: 401") _).
  reflexivity.
Defined.

(** ** Worked examples *)

(** Ten times 0.1: the left-to-right sum falls one unit short of 1.0, the
    compensated sum gives 1.0. *)
Example sum_of_tenths :
  py_sum false (repeat (F64.decimal 1 1) 10)
  = S754_finite false 9007199254740991 (-53) /\
  py_sum true (repeat (F64.decimal 1 1) 10) = F64.of_Z 1.
Proof. split; vm_compute; reflexivity. Qed.

(** The binary64 values of the literals 70.0000001 and 1e-6. *)
Example literal_values :
  F64.decimal 700000001 7 = S754_finite false 4925812099473354 (-46) /\
  tolerance = S754_finite false 4722366482869645 (-72).
Proof. split; vm_compute; reflexivity. Qed.

(** A valid form answered with 201 and a JSON body. *)
Example created_is_confirmed :
  create_invoice (sample_env (ret sample_reply) (ret created)) sample_sidebar
    (sample_form (F64.of_Z 100) sample_lines)
  = [st_json_payload (build_payload (sample_form (F64.of_Z 100) sample_lines));
     post (build_request sample_sidebar
             (build_payload (sample_form (F64.of_Z 100) sample_lines)));
     st_success "🎉 Invoice created successfully in Oracle Fusion!";
     st_json (PDict [("InvoiceId", PInt 42)])].
Proof. vm_compute. reflexivity. Qed.

Example request_of_sample_form :
  api_endpoint (build_request sample_sidebar
                  (build_payload (sample_form (F64.of_Z 100) sample_lines)))
  = "https://erp.example.com/fscmRestApi/resources/11.13.18.05/invoices" /\
  headers (build_request sample_sidebar
             (build_payload (sample_form (F64.of_Z 100) sample_lines)))
  = [("Content-Type", "application/vnd.oracle.adf.resourceitem+json");
     ("Accept", "application/json");
     ("Authorization", "Basic dXNlcjpwYXNz")].
Proof. split; vm_compute; reflexivity. Qed.

(** Three rows are numbered 1, 2, 3 in their order. *)
Example three_lines_numbered :
  map LineNumber
    (invoiceLines
       (build_payload
          (sample_form (F64.of_Z 100)
             [ {| amount := F64.of_Z 20; dist_comb := "L1" |};
               {| amount := F64.of_Z 30; dist_comb := "L2" |};
               {| amount := F64.of_Z 50; dist_comb := "L3" |} ])))
  = [1; 2; 3].
Proof. reflexivity. Qed.

(** Texts the date format takes and texts it rejects. *)
Example strptime_samples :
  map strptime_Ymd_ascii
    ["2024-02-13"; "13/02/2024"; "2024-2-3"; "2024-02-30"; "2024-02-29";
     "2023-02-29"; "2024-13-01"; "2024-12-32"; "2024-01- 5"; "0000-01-01"]
  = [Some (Date 2024 2 13); None; Some (Date 2024 2 3); None;
     Some (Date 2024 2 29); None; None; None; Some (Date 2024 1 5); None].
Proof. vm_compute. reflexivity. Qed.

(** A reply whose last closing brace comes before its first opening brace
    has no span. *)
Example no_span_samples :
  json_match "} then {" = None /\
  json_match "{ never closed" = None /\
  json_match "x {a{b}c} y } z" = Some "{a{b}c} y }".
Proof. repeat split. Qed.

(** * Further properties of the script *)

(** ** Step 1: the OCR text *)

Lemma markdowns_app (ps qs : list page) (vs ws : list pyval) :
  markdowns ps = ret vs -> markdowns qs = ret ws ->
  markdowns (ps ++ qs) = ret (vs ++ ws)%list.
Proof.
  revert vs. induction ps as [|p ps IH]; intros vs Hp Hq; simpl in *.
  - injection Hp as <-. exact Hq.
  - destruct (markdown p) as [e|v]; [discriminate Hp|]. simpl in *.
    destruct (markdowns ps) as [e|vs']; [discriminate Hp|]. simpl in *.
    injection Hp as <-. rewrite (IH vs' eq_refl Hq). reflexivity.
Qed.

Lemma markdowns_split (ps qs : list page) (us : list pyval) :
  markdowns (ps ++ qs) = ret us ->
  exists vs ws, markdowns ps = ret vs /\ markdowns qs = ret ws.
Proof.
  revert us. induction ps as [|p ps IH]; intros us H; simpl in *.
  - exists [], us. split; [reflexivity | exact H].
  - destruct (markdown p) as [e|v]; [discriminate H|]. simpl in *.
    destruct (markdowns (ps ++ qs)) as [e|us'] eqn:E; [discriminate H|].
    destruct (IH us' eq_refl) as (vs & ws & -> & ->).
    exists (v :: vs), ws. split; reflexivity.
Qed.

(** The position only words the error: a list of strings passes from any
    position. *)
Lemma expect_strs_shift (vs : list pyval) (ss : list string) (i j : Z) :
  expect_strs i vs = ret ss -> expect_strs j vs = ret ss.
Proof.
  revert ss i j. induction vs as [|v vs IH]; intros ss i j H; simpl in *.
  - exact H.
  - destruct v; try discriminate H.
    destruct (expect_strs (i + 1) vs) as [e|ss'] eqn:E; [discriminate H|].
    rewrite (IH ss' (i + 1) (j + 1) E). exact H.
Qed.

Lemma expect_strs_app (vs ws : list pyval) (ss ts : list string) (i : Z) :
  expect_strs i vs = ret ss -> expect_strs i ws = ret ts ->
  expect_strs i (vs ++ ws) = ret (ss ++ ts)%list.
Proof.
  revert ss i. induction vs as [|v vs IH]; intros ss i Hv Hw; simpl in *.
  - injection Hv as <-. exact Hw.
  - destruct v; try discriminate Hv.
    destruct (expect_strs (i + 1) vs) as [e|ss'] eqn:E; [discriminate Hv|].
    simpl in Hv. injection Hv as <-.
    rewrite (IH ss' (i + 1) E (expect_strs_shift ws ts i (i + 1) Hw)).
    reflexivity.
Qed.

Lemma expect_strs_length (vs : list pyval) (ss : list string) (i : Z) :
  expect_strs i vs = ret ss -> List.length ss = List.length vs.
Proof.
  revert ss i. induction vs as [|v vs IH]; intros ss i H; simpl in *.
  - injection H as <-. reflexivity.
  - destruct v; try discriminate H.
    destruct (expect_strs (i + 1) vs) as [e|ss'] eqn:E; [discriminate H|].
    simpl in H. injection H as <-. simpl. f_equal. exact (IH ss' (i + 1) E).
Qed.

Lemma markdowns_length (ps : list page) (vs : list pyval) :
  markdowns ps = ret vs -> List.length vs = List.length ps.
Proof.
  revert vs. induction ps as [|p ps IH]; intros vs H; simpl in *.
  - injection H as <-. reflexivity.
  - destruct (markdown p); [discriminate H|]. simpl in H.
    destruct (markdowns ps) as [e|vs']; [discriminate H|]. simpl in H.
    injection H as <-. simpl. f_equal. exact (IH vs' eq_refl).
Qed.

Lemma join_app (sep : string) (xs ys : list string) :
  xs <> [] -> ys <> [] ->
  join sep (xs ++ ys) = join sep xs ++ sep ++ join sep ys.
Proof.
  intros Hx Hy. induction xs as [|x xs IH]; [contradiction|].
  destruct xs as [|x' xs].
  - destruct ys as [|y ys]; [contradiction|]. reflexivity.
  - change (join sep ((x :: x' :: xs) ++ ys))
      with (x ++ sep ++ join sep ((x' :: xs) ++ ys)).
    rewrite IH by discriminate.
    change (join sep (x :: x' :: xs)) with (x ++ sep ++ join sep (x' :: xs)).
    rewrite !append_assoc3. reflexivity.
Qed.

(** X1: the OCR text of two runs of pages put one after the other is the
    text of the first, a blank line, and the text of the second; no other
    text is added between or around pages. *)
Theorem result_text_app (ps qs : list page) (a b : string) :
  ps <> [] -> qs <> [] ->
  result_text ps = ret a -> result_text qs = ret b ->
  result_text (ps ++ qs) = ret (a ++ (nl ++ nl) ++ b).
Proof.
  unfold result_text. intros Hp Hq Ha Hb.
  destruct (markdowns ps) as [e|vs] eqn:Ep; [discriminate Ha|].
  destruct (markdowns qs) as [e|ws] eqn:Eq; [discriminate Hb|].
  simpl in Ha, Hb.
  destruct (expect_strs 0 vs) as [e|ss] eqn:Es; [discriminate Ha|].
  destruct (expect_strs 0 ws) as [e|ts] eqn:Et; [discriminate Hb|].
  simpl in Ha, Hb. injection Ha as <-. injection Hb as <-.
  rewrite (markdowns_app ps qs vs ws Ep Eq). simpl.
  rewrite (expect_strs_app vs ws ss ts 0 Es Et). simpl.
  unfold ret. f_equal. apply join_app.
  - intros ->. apply expect_strs_length in Es. apply markdowns_length in Ep.
    destruct ps; [contradiction | simpl in *; destruct vs; discriminate].
  - intros ->. apply expect_strs_length in Et. apply markdowns_length in Eq.
    destruct qs; [contradiction | simpl in *; destruct ws; discriminate].
Qed.

Lemma result_text_app_witness :
  result_text ([Page (ret (PStr "# Invoice 7"))] ++
               [Page (ret (PStr "Total: 100"))])
  = ret ("# Invoice 7" ++ (nl ++ nl) ++ "Total: 100").
Proof.
  apply result_text_app; try discriminate; reflexivity.
Defined.

Lemma result_text_all_strings (ps : list page) (t : string) :
  result_text ps = ret t ->
  Forall (fun p => exists s, markdown p = ret (PStr s)) ps.
Proof.
  unfold result_text. intros H.
  destruct (markdowns ps) as [e|vs] eqn:Ep; [discriminate H|]. simpl in H.
  destruct (expect_strs 0 vs) as [e|ss] eqn:Es; [discriminate H|]. clear H.
  revert vs ss Ep Es. generalize 0.
  induction ps as [|p ps IH]; intros i vs ss Ep Es; [constructor|].
  simpl in Ep.
  destruct (markdown p) as [e|v] eqn:Ev; [discriminate Ep|]. simpl in Ep.
  destruct (markdowns ps) as [e|vs'] eqn:Ep'; [discriminate Ep|].
  simpl in Ep. injection Ep as <-. simpl in Es.
  destruct v; try discriminate Es.
  destruct (expect_strs (i + 1) vs') as [e|ss'] eqn:Es'; [discriminate Es|].
  constructor.
  - eexists. exact Ev.
  - exact (IH (i + 1) vs' ss' eq_refl Es').
Qed.

(** X2: the OCR step keeps its result only when every page gave its
    markdown as a string: then the text and the processed flag are stored
    and the candidate is left alone; in every other case (the service
    raises, a page has no readable markdown, a markdown is not a string)
    the session is exactly as before and one error is reported. *)
Theorem extract_ocr_all_or_nothing (ocr : ocr_service) (sb : sidebar)
    (file_bytes : string) (st : session) :
  (exists r t,
     ocr (mistral_api_key sb)
         {| ocr_model := "mistral-ocr-latest";
            ocr_document := encode_document file_bytes;
            include_image_base64 := true |} = inr r /\
     result_text (pages_of r) = ret t /\
     Forall (fun p => exists s, markdown p = ret (PStr s)) (pages_of r) /\
     extract_ocr ocr sb file_bytes st =
     ({| ocr_result := Some t;
         extracted_data := extracted_data st;
         pdf_processed := true |},
      [st_success "✅ PDF processed successfully!"]))
  \/
  (exists msg,
     extract_ocr ocr sb file_bytes st =
     (st, [st_error ("❌ Error processing PDF: " ++ msg)])).
Proof.
  unfold extract_ocr.
  destruct (ocr _ _) as [e|r] eqn:Er; simpl.
  - right. eexists. reflexivity.
  - destruct (result_text (pages_of r)) as [e|t] eqn:Et.
    + right. eexists. reflexivity.
    + left. exists r, t.
      split; [reflexivity|]. split; [exact Et|].
      split; [exact (result_text_all_strings _ _ Et) | reflexivity].
Qed.

(** ** Base64 keeps the bytes apart *)

Lemma b64encode_1 (a : ascii) :
  b64encode (String a EmptyString) =
  String (b64_char (byte a / 4))
    (String (b64_char (byte a mod 4 * 16)) "==").
Proof. reflexivity. Qed.

Lemma b64encode_2 (a b : ascii) :
  b64encode (String a (String b EmptyString)) =
  String (b64_char (byte a / 4))
    (String (b64_char (byte a mod 4 * 16 + byte b / 16))
       (String (b64_char (byte b mod 16 * 4)) "=")).
Proof. reflexivity. Qed.

Lemma b64encode_3 (a b c : ascii) (rest : string) :
  b64encode (String a (String b (String c rest))) =
  String (b64_char (byte a / 4))
    (String (b64_char (byte a mod 4 * 16 + byte b / 16))
       (String (b64_char (byte b mod 16 * 4 + byte c / 64))
          (String (b64_char (byte c mod 64)) (b64encode rest)))).
Proof. reflexivity. Qed.

Lemma b64_alphabet_checked :
  forallb (fun n => (b64_index (b64_char n) =? n) &&
                    negb (Ascii.eqb (b64_char n) "="))
          (range 0 63) = true.
Proof. vm_compute. reflexivity. Qed.

Lemma b64_index_char (n : Z) :
  0 <= n < 64 -> b64_index (b64_char n) = n /\ b64_char n <> "="%char.
Proof.
  intros Hn.
  pose proof (proj1 (forallb_forall _ _) b64_alphabet_checked n
                (in_range_list 0 63 n ltac:(lia))) as H.
  apply andb_prop in H as [H1 H2].
  apply Z.eqb_eq in H1. apply negb_true_iff, Ascii.eqb_neq in H2.
  split; assumption.
Qed.

Lemma b64_char_inj (n m : Z) :
  0 <= n < 64 -> 0 <= m < 64 -> b64_char n = b64_char m -> n = m.
Proof.
  intros Hn Hm H.
  rewrite <- (proj1 (b64_index_char n Hn)), <- (proj1 (b64_index_char m Hm)).
  rewrite H. reflexivity.
Qed.

Lemma byte_range (c : ascii) : 0 <= byte c < 256.
Proof.
  unfold byte. pose proof (N_ascii_bounded c). lia.
Qed.

Lemma byte_inj (a b : ascii) : byte a = byte b -> a = b.
Proof.
  unfold byte. intros H. apply N2Z.inj in H.
  rewrite <- (ascii_N_embedding a), <- (ascii_N_embedding b), H.
  reflexivity.
Qed.

Lemma sextets_inj (a b c a' b' c' : Z) :
  0 <= a < 256 -> 0 <= b < 256 -> 0 <= c < 256 ->
  0 <= a' < 256 -> 0 <= b' < 256 -> 0 <= c' < 256 ->
  a / 4 = a' / 4 ->
  a mod 4 * 16 + b / 16 = a' mod 4 * 16 + b' / 16 ->
  b mod 16 * 4 + c / 64 = b' mod 16 * 4 + c' / 64 ->
  c mod 64 = c' mod 64 ->
  a = a' /\ b = b' /\ c = c'.
Proof.
  intros. Z.div_mod_to_equations. lia.
Qed.

(** The four characters of a group are letters of the alphabet, so none
    of them is the padding sign. *)
Ltac sextet_range :=
  match goal with
  | |- 0 <= _ < 64 =>
      repeat match goal with
             | |- context [byte ?x] =>
                 lazymatch goal with
                 | _ : 0 <= byte x < 256 |- _ => fail
                 | _ => pose proof (byte_range x)
                 end
             end;
      Z.div_mod_to_equations; lia
  end.

Lemma b64encode_inj_bounded (n : nat) (s t : string) :
  (String.length s <= n)%nat -> b64encode s = b64encode t -> s = t.
Proof.
  revert s t. induction n as [|n IH]; intros s t Hlen H.
  - destruct s; [|simpl in Hlen; lia].
    destruct t as [|a [|b [|c t]]]; [reflexivity | | | ];
      rewrite ?b64encode_1, ?b64encode_2, ?b64encode_3 in H; discriminate H.
  - destruct s as [|a [|b [|c s]]], t as [|a' [|b' [|c' t]]];
      rewrite ?b64encode_1, ?b64encode_2, ?b64encode_3 in H;
      try reflexivity; try discriminate H.
    + (* one byte, one byte *)
      injection H as H1 H2.
      apply b64_char_inj in H1, H2; try sextet_range.
      pose proof (byte_range a). pose proof (byte_range a').
      f_equal. apply byte_inj. Z.div_mod_to_equations. lia.
    + (* one byte against two: padding against a letter *)
      injection H as _ _ H3. exfalso.
      symmetry in H3. revert H3. apply b64_index_char. sextet_range.
    + injection H as _ _ H3 _. exfalso.
      symmetry in H3. revert H3. apply b64_index_char. sextet_range.
    + injection H as _ _ H3. exfalso.
      revert H3. apply b64_index_char. sextet_range.
    + (* two bytes, two bytes *)
      injection H as H1 H2 H3.
      apply b64_char_inj in H1, H2, H3; try sextet_range.
      pose proof (byte_range a). pose proof (byte_range a').
      pose proof (byte_range b). pose proof (byte_range b').
      assert (E : byte a = byte a' /\ byte b = byte b')
        by (Z.div_mod_to_equations; lia).
      destruct E as [Ha Hb].
      apply byte_inj in Ha, Hb. subst. reflexivity.
    + injection H as _ _ _ H4 _. exfalso.
      symmetry in H4. revert H4. apply b64_index_char. sextet_range.
    + injection H as _ _ H3 _. exfalso.
      revert H3. apply b64_index_char. sextet_range.
    + injection H as _ _ _ H4 _. exfalso.
      revert H4. apply b64_index_char. sextet_range.
    + (* a full group each, then the rest *)
      injection H as H1 H2 H3 H4 Hrest.
      apply b64_char_inj in H1, H2, H3, H4; try sextet_range.
      destruct (sextets_inj _ _ _ _ _ _
                  (byte_range a) (byte_range b) (byte_range c)
                  (byte_range a') (byte_range b') (byte_range c')
                  H1 H2 H3 H4) as (Ha & Hb & Hc).
      apply byte_inj in Ha, Hb, Hc. subst.
      do 3 f_equal. apply IH; [simpl in Hlen; lia | exact Hrest].
Qed.

Lemma b64encode_inj (s t : string) : b64encode s = b64encode t -> s = t.
Proof. apply (b64encode_inj_bounded (String.length s)). lia. Qed.

Lemma append_cancel_l (s a b : string) : s ++ a = s ++ b -> a = b.
Proof.
  induction s as [|c s IH]; simpl; intros H; [exact H|].
  injection H as H. exact (IH H).
Qed.

Lemma length_append (a b : string) :
  String.length (a ++ b) = (String.length a + String.length b)%nat.
Proof. induction a as [|c a IH]; simpl; congruence. Qed.

Lemma append_cancel_r (t a b : string) : a ++ t = b ++ t -> a = b.
Proof.
  revert b. induction a as [|c a IH]; intros [|d b] H; simpl in H.
  - reflexivity.
  - apply (f_equal String.length) in H. simpl in H.
    rewrite length_append in H. lia.
  - apply (f_equal String.length) in H. simpl in H.
    rewrite length_append in H. lia.
  - injection H as -> H. f_equal. exact (IH b H).
Qed.

(** X3: the document sent to the OCR service is a data URI of type
    application/pdf that carries the uploaded bytes in base64, and two
    different files never give the same document. *)
Theorem encode_document_faithful (file_bytes other_bytes : string) :
  doc_type (encode_document file_bytes) = "document_url" /\
  document_url (encode_document file_bytes) =
    "data:application/pdf;base64," ++ b64encode file_bytes /\
  (encode_document file_bytes = encode_document other_bytes ->
   file_bytes = other_bytes).
Proof.
  split; [reflexivity|]. split; [reflexivity|].
  intros H. apply (f_equal document_url) in H. unfold encode_document in H.
  cbn [document_url] in H.
  apply append_cancel_l in H. apply b64encode_inj, H.
Qed.

Lemma encode_document_faithful_witness :
  encode_document "%PDF-1.7" <> encode_document "%PDF-1.4".
Proof.
  intros H.
  apply (proj2 (proj2 (encode_document_faithful "%PDF-1.7" "%PDF-1.4"))) in H.
  discriminate H.
Defined.

(** ** Step 4: credentials and endpoint *)

Lemma colon_split (u u' p p' : string) :
  contains ":" u = false -> contains ":" u' = false ->
  u ++ ":" ++ p = u' ++ ":" ++ p' -> u = u' /\ p = p'.
Proof.
  revert u'. induction u as [|c u IH]; intros [|c' u'] Hu Hu' H;
    simpl in *.
  - injection H as ->. split; reflexivity.
  - injection H as <- _. simpl in Hu'. discriminate Hu'.
  - injection H as -> _. simpl in Hu. discriminate Hu.
  - apply orb_false_elim in Hu as [_ Hu].
    apply orb_false_elim in Hu' as [_ Hu'].
    injection H as -> H.
    destruct (IH u' Hu Hu' H) as [-> ->]. split; reflexivity.
Qed.

(** X4: the Basic authorization header is fixed by the text
    username:password and fixes it.  With no colon in the user names the
    header tells user name and password apart; a colon in the user name
    does not: the pairs (u:v, p) and (u, v:p) send the same header. *)
Theorem basic_header_credentials :
  (forall sb sb' u p u' p',
     auth_method sb = BasicAuth u p -> auth_method sb' = BasicAuth u' p' ->
     (auth_header sb = auth_header sb' <->
      u ++ ":" ++ p = u' ++ ":" ++ p')) /\
  (forall sb sb' u p u' p',
     auth_method sb = BasicAuth u p -> auth_method sb' = BasicAuth u' p' ->
     contains ":" u = false -> contains ":" u' = false ->
     auth_header sb = auth_header sb' -> u = u' /\ p = p') /\
  (forall sb sb' u v p,
     auth_method sb = BasicAuth (u ++ ":" ++ v) p ->
     auth_method sb' = BasicAuth u (v ++ ":" ++ p) ->
     auth_header sb = auth_header sb').
Proof.
  assert (Hiff : forall sb sb' u p u' p',
     auth_method sb = BasicAuth u p -> auth_method sb' = BasicAuth u' p' ->
     (auth_header sb = auth_header sb' <->
      u ++ ":" ++ p = u' ++ ":" ++ p')).
  { intros sb sb' u p u' p' H H'. unfold auth_header. rewrite H, H'.
    split.
    - intros E. injection E as E. apply b64encode_inj, E.
    - intros ->. reflexivity. }
  split; [exact Hiff|]. split.
  - intros sb sb' u p u' p' H H' Hu Hu' E.
    apply (colon_split u u' p p' Hu Hu').
    apply (proj1 (Hiff sb sb' u p u' p' H H')), E.
  - intros sb sb' u v p H H'.
    apply (proj2 (Hiff sb sb' _ _ _ _ H H')).
    rewrite append_assoc3. reflexivity.
Qed.

Lemma basic_header_credentials_witness :
  auth_header (Sidebar "k" (BasicAuth "ap:user" "secret") "https://x")
  = auth_header (Sidebar "k" (BasicAuth "ap" "user:secret") "https://x").
Proof.
  apply (proj2 (proj2 basic_header_credentials) _ _ "ap" "user" "secret");
    reflexivity.
Defined.

Lemma rstrip_slash_empty_iff (s : string) :
  rstrip_slash s = EmptyString <-> all_slashes s = true.
Proof.
  induction s as [|c s IH]; simpl; [tauto|].
  destruct (rstrip_slash s) as [|d r] eqn:E.
  - destruct (Ascii.eqb c "/"); simpl.
    + split; intros _; [apply IH|]; reflexivity.
    + split; discriminate.
  - split; [discriminate|]. intros H. apply andb_prop in H as [_ H].
    apply IH in H. discriminate H.
Qed.

Lemma rstrip_slash_no_trailing (s : string) :
  ends_with_slash (rstrip_slash s) = false.
Proof.
  induction s as [|c s IH]; simpl; [reflexivity|].
  destruct (rstrip_slash s) as [|d r] eqn:E.
  - destruct (Ascii.eqb c "/") eqn:Ec; simpl; [reflexivity | exact Ec].
  - exact IH.
Qed.

Lemma rstrip_slash_split (s : string) :
  exists t, all_slashes t = true /\ s = rstrip_slash s ++ t.
Proof.
  induction s as [|c s IH]; simpl.
  - exists EmptyString. split; reflexivity.
  - destruct IH as (t & Ht & Hs).
    destruct (rstrip_slash s) as [|d r] eqn:E.
    + simpl in Hs. subst t.
      destruct (Ascii.eqb_spec c "/") as [->|Hc].
      * exists (String "/" s). split; [simpl; exact Ht | reflexivity].
      * exists s. split; [exact Ht | reflexivity].
    + exists t. split; [exact Ht|]. simpl. f_equal. exact Hs.
Qed.

Lemma rstrip_slash_append (s t : string) :
  all_slashes t = true -> rstrip_slash (s ++ t) = rstrip_slash s.
Proof.
  intros Ht. induction s as [|c s IH]; simpl.
  - apply rstrip_slash_empty_iff, Ht.
  - rewrite IH. reflexivity.
Qed.

(** X5: the endpoint is the base URL without its trailing slashes,
    followed by the resource path: the part before the path never ends in
    a slash, what was cut off is slashes only, and base URLs that differ
    by trailing slashes give the same endpoint. *)
Theorem api_endpoint_trailing_slashes (sb : sidebar) (p : payload) :
  (exists base cut,
     api_endpoint (build_request sb p) =
       base ++ "/fscmRestApi/resources/11.13.18.05/invoices" /\
     ends_with_slash base = false /\
     all_slashes cut = true /\
     fusion_url sb = base ++ cut) /\
  (forall sb' cut,
     all_slashes cut = true ->
     fusion_url sb' = fusion_url sb ++ cut ->
     api_endpoint (build_request sb' p) = api_endpoint (build_request sb p)).
Proof.
  split.
  - destruct (rstrip_slash_split (fusion_url sb)) as (cut & Hcut & Hs).
    exists (rstrip_slash (fusion_url sb)), cut.
    split; [reflexivity|]. split; [apply rstrip_slash_no_trailing|].
    split; assumption.
  - intros sb' cut Hcut H. unfold build_request. cbn [api_endpoint].
    rewrite H, (rstrip_slash_append _ _ Hcut). reflexivity.
Qed.

Lemma api_endpoint_trailing_slashes_witness :
  api_endpoint (build_request (Sidebar "k" (OAuth2 "t") "https://erp.example.com//")
                  (build_payload (sample_form (F64.of_Z 100) sample_lines)))
  = api_endpoint (build_request (Sidebar "k" (OAuth2 "t") "https://erp.example.com")
                  (build_payload (sample_form (F64.of_Z 100) sample_lines))).
Proof.
  apply (proj2 (api_endpoint_trailing_slashes
                  (Sidebar "k" (OAuth2 "t") "https://erp.example.com") _)
           _ "//"); reflexivity.
Defined.

(** ** Step 4: what the payload carries *)

Lemma strftime_Ymd_inj (d d' : date) :
  valid_date d = true -> valid_date d' = true ->
  strftime_Ymd d = strftime_Ymd d' -> d = d'.
Proof.
  intros Hd Hd' H.
  pose proof (strptime_strftime d Hd) as E.
  rewrite H, (strptime_strftime d' Hd') in E. congruence.
Qed.

Lemma line_payloads_inj (F G : Z * line -> line_payload) (ls ls' : list line)
      (start : Z) :
  (forall i l, LineAmount (F (i, l)) = amount l /\
               DistributionCombination (F (i, l)) = dist_comb l) ->
  (forall i l, LineAmount (G (i, l)) = amount l /\
               DistributionCombination (G (i, l)) = dist_comb l) ->
  map F (enumerate_from start ls) = map G (enumerate_from start ls') ->
  ls = ls'.
Proof.
  intros HF HG. revert ls' start.
  induction ls as [|l ls IH]; intros [|l' ls'] start H; simpl in H;
    try discriminate H; [reflexivity|].
  injection H as Hhd Htl. f_equal; [|exact (IH ls' (start + 1) Htl)].
  pose proof (HF start l) as [A D]. pose proof (HG start l') as [A' D'].
  rewrite Hhd in A, D. rewrite A' in A. rewrite D' in D.
  destruct l, l'. simpl in *. congruence.
Qed.

(** X6: the payload carries the whole form except the payment terms.  For
    calendar dates, two forms build the same payload exactly when they
    agree on everything but the payment terms, which are never sent. *)
Theorem payload_carries_all_but_terms (f g : form) :
  valid_date (invoice_date f) = true -> valid_date (invoice_date g) = true ->
  (build_payload f = build_payload g <->
   with_payment_terms f EmptyString = with_payment_terms g EmptyString).
Proof.
  intros Hf Hg. split.
  - intros H.
    pose proof (f_equal InvoiceNumber H) as E1.
    pose proof (f_equal InvoiceCurrency H) as E2.
    pose proof (f_equal InvoiceAmount H) as E3.
    pose proof (f_equal InvoiceDate H) as E4.
    pose proof (f_equal BusinessUnit H) as E5.
    pose proof (f_equal Supplier H) as E6.
    pose proof (f_equal SupplierSite H) as E7.
    pose proof (f_equal InvoiceGroup H) as E8.
    pose proof (f_equal Description H) as E9.
    pose proof (f_equal invoiceLines H) as E10.
    cbn [build_payload InvoiceNumber InvoiceCurrency InvoiceAmount InvoiceDate
         BusinessUnit Supplier SupplierSite InvoiceGroup Description
         invoiceLines] in *.
    apply (strftime_Ymd_inj _ _ Hf Hg) in E4.
    unfold invoice_lines, enumerate in E10.
    apply line_payloads_inj in E10;
      [| intros i l; split; reflexivity | intros i l; split; reflexivity].
    unfold with_payment_terms. congruence.
  - intros H.
    pose proof (f_equal business_unit H) as E1.
    pose proof (f_equal supplier_name H) as E2.
    pose proof (f_equal supplier_site H) as E3.
    pose proof (f_equal invoice_number H) as E4.
    pose proof (f_equal invoice_amount H) as E5.
    pose proof (f_equal invoice_date H) as E6.
    pose proof (f_equal invoice_currency H) as E7.
    pose proof (f_equal invoice_group H) as E8.
    pose proof (f_equal description H) as E9.
    pose proof (f_equal lines_data H) as E10.
    cbn [with_payment_terms business_unit supplier_name supplier_site
         invoice_number invoice_amount invoice_date invoice_currency
         invoice_group description lines_data] in *.
    unfold build_payload, invoice_lines.
    rewrite E1, E2, E3, E4, E5, E6, E7, E8, E9, E10. reflexivity.
Qed.

Lemma payload_carries_all_but_terms_witness :
  build_payload (with_payment_terms (sample_form (F64.of_Z 100) sample_lines)
                   "NET30")
  = build_payload (sample_form (F64.of_Z 100) sample_lines).
Proof.
  apply payload_carries_all_but_terms; reflexivity.
Defined.

(** ** Step 4: what a click can show and send *)

Lemma create_invoice_cases (env : Env) (sb : sidebar) (f : form) :
  (validation_passes env sb f = false /\
   exists msg, create_invoice env sb f = [st_error msg]) \/
  (validation_passes env sb f = true /\
   create_invoice env sb f = submit env sb f).
Proof.
  unfold validation_passes, create_invoice.
  destruct (forallb str_truthy (required_fields sb f)); simpl;
    [|left; split; [reflexivity | eexists; reflexivity]].
  destruct (amount_not_positive f); simpl;
    [left; split; [reflexivity | eexists; reflexivity]|].
  destruct (sum_mismatch env f); simpl;
    [left; split; [reflexivity | eexists; reflexivity]|].
  destruct (all_dist_comb f); simpl;
    [right; split; reflexivity
    |left; split; [reflexivity | eexists; reflexivity]].
Qed.

(** After the preview and the request, a submission only reports. *)
Lemma submit_reports (env : Env) (sb : sidebar) (f : form) :
  exists reports,
    submit env sb f =
    st_json_payload (build_payload f) ::
    post (build_request sb (build_payload f)) :: reports /\
    count_posts reports = O /\
    (forall msg, In (st_success msg) reports ->
       exists resp,
         requests_post env (build_request sb (build_payload f)) = inr resp /\
         (status_code resp = 200 \/ status_code resp = 201)).
Proof.
  unfold submit.
  destruct (requests_post env _) as [e|resp] eqn:Ep.
  - eexists. split; [reflexivity|]. split.
    + unfold submit_except. destruct (exn_kind e); reflexivity.
    + unfold submit_except. intros msg [H|[]].
      destruct (exn_kind e); discriminate H.
  - destruct (Z.eqb_spec (status_code resp) 200) as [E200|N200];
      [|destruct (Z.eqb_spec (status_code resp) 201) as [E201|N201]]; simpl.
    + eexists. split; [reflexivity|]. split.
      * destruct (response_json resp) as [e|body]; [|reflexivity].
        unfold submit_except. destruct (exn_kind e); reflexivity.
      * intros _ _. exists resp. split; [reflexivity | left; exact E200].
    + eexists. split; [reflexivity|]. split.
      * destruct (response_json resp) as [e|body]; [|reflexivity].
        unfold submit_except. destruct (exn_kind e); reflexivity.
      * intros _ _. exists resp. split; [reflexivity | right; exact E201].
    + eexists. split; [reflexivity|]. split; [reflexivity|].
      intros msg [H|[H|[]]]; discriminate H.
Qed.

(** X7: success is never announced on its own authority.  A success
    message after a click means that the form passed all four rules, that
    the request was made, and that the ERP answered it with status 200 or
    201. *)
Theorem success_means_accepted (env : Env) (sb : sidebar) (f : form)
    (msg : string) :
  In (st_success msg) (create_invoice env sb f) ->
  validation_passes env sb f = true /\
  exists resp,
    requests_post env (build_request sb (build_payload f)) = inr resp /\
    (status_code resp = 200 \/ status_code resp = 201).
Proof.
  intros H.
  destruct (create_invoice_cases env sb f) as [[_ [m E]] | [Hv E]];
    rewrite E in H.
  - destruct H as [H|[]]. discriminate H.
  - split; [exact Hv|].
    destruct (submit_reports env sb f) as (reports & Es & _ & Hs).
    rewrite Es in H. destruct H as [H|[H|H]]; try discriminate H.
    exact (Hs msg H).
Qed.

Lemma success_means_accepted_witness :
  validation_passes (sample_env (ret sample_reply) (ret created))
    sample_sidebar (sample_form (F64.of_Z 100) sample_lines) = true.
Proof.
  refine (proj1 (success_means_accepted
                   (sample_env (ret sample_reply) (ret created))
                   sample_sidebar (sample_form (F64.of_Z 100) sample_lines)
                   "🎉 Invoice created successfully in Oracle Fusion!" _)).
  vm_compute. right. right. left. reflexivity.
Defined.

(** X8: one click sends at most one request, and never one the user was
    not shown: a request among the events is the request built from the
    form, the form passed validation, and the events begin with the
    preview of the very payload the request carries, then the request,
    then reports only. *)
Theorem one_request_after_preview (env : Env) (sb : sidebar) (f : form) :
  (count_posts (create_invoice env sb f) <= 1)%nat /\
  (forall r,
     In (post r) (create_invoice env sb f) ->
     validation_passes env sb f = true /\
     r = build_request sb (build_payload f) /\
     exists reports,
       create_invoice env sb f = st_json_payload (json r) :: post r :: reports /\
       count_posts reports = O).
Proof.
  destruct (create_invoice_cases env sb f) as [[_ [m E]] | [Hv E]];
    rewrite E.
  - split; [simpl; lia|]. intros r [H|[]]. discriminate H.
  - destruct (submit_reports env sb f) as (reports & Es & Hc & _).
    rewrite Es. split; [simpl; rewrite Hc; lia|].
    intros r H.
    assert (Hr : r = build_request sb (build_payload f)).
    { destruct H as [H|[H|H]]; [discriminate H | congruence |].
      exfalso. clear Es. induction reports as [|ev reports IH];
        [contradiction|].
      destruct H as [->|H]; [discriminate Hc|].
      apply IH; [|exact H]. destruct ev; simpl in Hc; congruence. }
    subst r. split; [exact Hv|]. split; [reflexivity|].
    exists reports. split; [reflexivity | exact Hc].
Qed.

Lemma one_request_after_preview_witness :
  validation_passes (sample_env (ret sample_reply) (ret bad_request))
    sample_sidebar (sample_form (F64.of_Z 100) sample_lines) = true.
Proof.
  refine (proj1 (proj2 (one_request_after_preview
                     (sample_env (ret sample_reply) (ret bad_request))
                     sample_sidebar (sample_form (F64.of_Z 100) sample_lines))
              (build_request sample_sidebar
                 (build_payload (sample_form (F64.of_Z 100) sample_lines)))
              _)).
  vm_compute. right. left. reflexivity.
Defined.

(** ** From the seeded line to rule 3 *)

Lemma sub_self (x : float) :
  F64.is_finite x = true -> F64.sub x x = F64.zero.
Proof.
  destruct x as [[|]| | |s m e]; simpl; try discriminate; try reflexivity.
  intros _. unfold F64.sub, SFsub. cbv zeta. rewrite Z.sub_diag. reflexivity.
Qed.

Lemma add_zero_finite (x : float) :
  F64.is_finite x = true ->
  F64.sub (F64.add F64.zero x) x = F64.zero.
Proof.
  destruct x as [[|]| | |s m e]; intros H;
    try discriminate H; try reflexivity.
  change (F64.add F64.zero (S754_finite s m e)) with (S754_finite s m e).
  apply sub_self. reflexivity.
Qed.

Lemma py_sum_single (compensated : bool) (x : float) :
  py_sum compensated [x] = F64.add F64.zero x.
Proof. destruct compensated; reflexivity. Qed.

(** X9: a form with one line whose amount is the invoice amount, as the
    form starts when the candidate has no line items, passes the test on
    the sum of the lines, for every amount that is a number. *)
Theorem single_line_of_total_passes (env : Env) (f : form) (d : string) :
  F64.is_finite (invoice_amount f) = true ->
  lines_data f = [ {| amount := invoice_amount f; dist_comb := d |} ] ->
  sum_mismatch env f = false.
Proof.
  intros Hfin Hl. unfold sum_mismatch. rewrite Hl. cbn [map amount].
  rewrite py_sum_single, (add_zero_finite _ Hfin).
  vm_compute. reflexivity.
Qed.

Lemma single_line_of_total_passes_witness :
  sum_mismatch (sample_env (ret sample_reply) (ret created))
    (sample_form (F64.decimal 125050 2)
       [ {| amount := F64.decimal 125050 2; dist_comb := EmptyString |} ])
  = false.
Proof.
  apply (single_line_of_total_passes _ _ EmptyString); reflexivity.
Defined.

(** ** Step 2: prompt and span *)

Lemma prompt_of_stored_text (s : session) (x : string) :
  ocr_result s = Some x ->
  extraction_prompt s = prompt_head ++ x ++ prompt_tail.
Proof.
  intros Hs. unfold extraction_prompt, ocr_text. rewrite Hs. reflexivity.
Qed.

Lemma prompt_names_candidate_keys :
  Forall (fun key => occurs (dq ++ key ++ dq) prompt_head = true)
         candidate_keys.
Proof.
  unfold candidate_keys.
  repeat (constructor; [vm_compute; reflexivity|]). constructor.
Qed.

Lemma prompt_closing_line :
  occurs "Return only the JSON object, no other text." prompt_tail = true.
Proof. vm_compute. reflexivity. Qed.

(** X10: the prompt is the fixed instruction, then the stored OCR text
    as it is, then the fixed closing line.  The instruction names every
    key the form later reads from the candidate, the closing line asks for
    the JSON object only, and for stored texts equal prompts mean equal
    texts.  A session without OCR text reads as the word None. *)
Theorem extraction_prompt_embeds_text (st : session) (t : string) :
  ocr_result st = Some t ->
  extraction_prompt st = prompt_head ++ t ++ prompt_tail /\
  String.length (extraction_prompt st) =
    (String.length prompt_head + String.length t +
     String.length prompt_tail)%nat /\
  (forall st' t',
     ocr_result st' = Some t' ->
     extraction_prompt st' = extraction_prompt st -> t' = t) /\
  Forall (fun key => occurs (dq ++ key ++ dq) prompt_head = true)
         candidate_keys /\
  occurs "Return only the JSON object, no other text." prompt_tail = true /\
  (forall data flag data' flag',
     extraction_prompt (Session None data flag) =
     extraction_prompt (Session (Some "None") data' flag')).
Proof.
  intros Ht.
  split; [exact (prompt_of_stored_text st t Ht)|]. split.
  { rewrite (prompt_of_stored_text st t Ht).
    rewrite (length_append prompt_head (t ++ prompt_tail)).
    rewrite (length_append t prompt_tail). lia. }
  split.
  { intros st' t' Ht' H.
    rewrite (prompt_of_stored_text st t Ht) in H.
    rewrite (prompt_of_stored_text st' t' Ht') in H.
    apply append_cancel_l in H. apply append_cancel_r in H. exact H. }
  split; [exact prompt_names_candidate_keys|].
  split; [exact prompt_closing_line|].
  intros data flag data' flag'. reflexivity.
Qed.

Lemma extraction_prompt_embeds_text_witness :
  extraction_prompt (Session (Some "INVOICE 7") (PDict []) true)
  = prompt_head ++ "INVOICE 7" ++ prompt_tail.
Proof.
  exact (proj1 (extraction_prompt_embeds_text
                  (Session (Some "INVOICE 7") (PDict []) true) "INVOICE 7"
                  eq_refl)).
Defined.

(** X11: searching the span again gives the span back: what the search
    returns starts at its own first opening brace and ends at its own last
    closing brace, so it has at least these two characters. *)
Theorem json_match_idempotent (reply span : string) :
  json_match reply = Some span ->
  json_match span = Some span /\ (2 <= String.length span)%nat.
Proof.
  intros H. apply json_match_some in H.
  destruct H as (pre & body & post & _ & -> & _ & _). split.
  - pose proof (json_match_first_to_last EmptyString body EmptyString
                  eq_refl eq_refl) as E.
    simpl in E. rewrite append_assoc3 in E. exact E.
  - simpl. rewrite length_append. simpl. lia.
Qed.

Lemma json_match_idempotent_witness :
  json_match sample_object_text = Some sample_object_text.
Proof.
  apply (json_match_idempotent sample_reply). vm_compute. reflexivity.
Defined.

(** ** Step 3: the guard on the rows *)

Lemma py_str_len_nonneg (s : string) : 0 <= py_str_len s.
Proof.
  induction s as [|c s IH]; simpl; [lia|].
  destruct (is_continuation c); lia.
Qed.

Lemma py_str_item_in_range (s : string) (i : nat) :
  Z.of_nat i < py_str_len s -> exists c, py_str_item s i = Some c.
Proof.
  revert i. induction s as [|a s IH]; intros i H; simpl in *; [lia|].
  destruct (is_continuation a).
  - apply IH. lia.
  - destruct i as [|j]; [eexists; reflexivity|]. apply IH. lia.
Qed.

Lemma py_float_not_index_error (env : Env) (v : pyval) (e : exn) :
  py_float env v = inl e -> exn_kind e <> IndexError.
Proof.
  destruct v; simpl; intros H;
    try (injection H as <-; discriminate); try discriminate H.
  - destruct (F64.is_finite (F64.of_Z n)); [discriminate H|].
    injection H as <-. discriminate.
  - destruct (float_of_str env s); [discriminate H|].
    injection H as <-. discriminate.
Qed.

Lemma py_key_not_index_error (item : pyval) (key : string) (e : exn) :
  py_key item key = inl e -> exn_kind e <> IndexError.
Proof.
  destruct item; simpl; intros H;
    try (injection H as <-; discriminate).
  destruct (lookup key entries); [discriminate H|].
  injection H as <-. discriminate.
Qed.

(** X12: the test [i < len(extracted_lines)] is enough: computing the
    initial amount of a row never fails with an index out of range,
    whatever the candidate's line items are (a list, a string, a dict or
    anything else) and whatever the row. *)
Theorem line_amount_never_out_of_range (env : Env) (lines : pyval) (i : nat)
    (e : exn) :
  line_amount_value env lines i = inl e -> exn_kind e <> IndexError.
Proof.
  unfold line_amount_value.
  destruct lines; simpl; intros H;
    try (injection H as <-; discriminate).
  - (* a string *)
    destruct (Z.ltb_spec (Z.of_nat i) (py_str_len s)) as [Hlt|_];
      [|discriminate H].
    destruct (py_str_item_in_range s i Hlt) as [c Hc].
    rewrite Hc in H. simpl in H. injection H as <-. discriminate.
  - (* a list *)
    destruct (Z.ltb_spec (Z.of_nat i) (Z.of_nat (List.length items)))
      as [Hlt|_]; [|discriminate H].
    destruct (nth_error items i) as [item|] eqn:Hn.
    + simpl in H. destruct (py_key item "amount") as [e'|a] eqn:Hk.
      * simpl in H. injection H as <-.
        exact (py_key_not_index_error _ _ _ Hk).
      * simpl in H. exact (py_float_not_index_error _ _ _ H).
    + apply nth_error_None in Hn. lia.
  - (* a dict *)
    destruct (Z.of_nat i <? Z.of_nat (List.length entries));
      [|discriminate H].
    simpl in H. injection H as <-. discriminate.
Qed.

Lemma line_amount_never_out_of_range_witness :
  exn_kind (Exn TypeError "float() argument must be a string or a real number")
  <> IndexError.
Proof.
  apply (line_amount_never_out_of_range
           (sample_env (ret sample_reply) (ret created))
           (PList [PDict [("amount", PNone)]]) 0).
  reflexivity.
Defined.

(** ** Runs of the script *)

Lemma pressed_one (inp : run_input) (a b : button) :
  pressed inp a = true -> a <> b -> pressed inp b = false.
Proof.
  unfold pressed. destruct (clicked inp) as [c|]; [|discriminate].
  destruct c, a, b; simpl; congruence.
Qed.

Lemma extract_ocr_frame (ocr : ocr_service) (sb : sidebar)
      (file_bytes : string) (st : session) :
  extracted_data (fst (extract_ocr ocr sb file_bytes st)) = extracted_data st /\
  (fst (extract_ocr ocr sb file_bytes st) = st \/
   pdf_processed (fst (extract_ocr ocr sb file_bytes st)) = true /\
   exists t, ocr_result (fst (extract_ocr ocr sb file_bytes st)) = Some t) /\
  count_posts (snd (extract_ocr ocr sb file_bytes st)) = O.
Proof.
  unfold extract_ocr.
  destruct (_ <- ocr _ _ ;; _) as [e|t]; simpl.
  - repeat split. left. reflexivity.
  - repeat split. right. split; [reflexivity | eexists; reflexivity].
Qed.

Lemma auto_extract_frame (env : Env) (sb : sidebar) (st : session) :
  ocr_result (fst (auto_extract env sb st)) = ocr_result st /\
  pdf_processed (fst (auto_extract env sb st)) = pdf_processed st /\
  count_posts (snd (auto_extract env sb st)) = O.
Proof.
  unfold auto_extract.
  destruct (chat_complete env _ _) as [e|reply]; simpl;
    [repeat split|].
  destruct (json_match reply) as [span|]; simpl; [|repeat split].
  destruct (json_loads env span) as [e|v]; simpl; repeat split.
Qed.

Lemma step2_open_frame (st st' : session) :
  ocr_result st' = ocr_result st -> pdf_processed st' = pdf_processed st ->
  step2_open st' = step2_open st.
Proof. unfold step2_open. intros -> ->. reflexivity. Qed.

(** A run in which the OCR button is not pressed goes straight to the
    gate of step 2. *)
Lemma run_without_ocr (ocr : ocr_service) (env : Env) (inp : run_input)
      (st : session) :
  pressed inp ExtractInvoiceData = false ->
  run ocr env inp st =
  if step2_open st then
    let '(st2, ev2) :=
      if pressed inp AutoExtractInvoiceData
      then auto_extract env (side inp) st
      else (st, []) in
    if truthy (extracted_data st2) then
      match review_form env (extracted_data st2) (values inp) with
      | inl e => {| final := st2; shown := ev2; uncaught := Some e |}
      | inr f =>
          {| final := st2;
             shown := (ev2 ++
                       if pressed inp CreateInvoiceInOracle
                       then create_invoice env (side inp) f
                       else [])%list;
             uncaught := None |}
      end
    else {| final := st2; shown := ev2; uncaught := None |}
  else {| final := st; shown := []; uncaught := None |}.
Proof.
  intros H. unfold run. rewrite H, andb_false_r.
  destruct (uploaded_file inp); reflexivity.
Qed.

Lemma review_form_value (env : Env) (data : pyval) (w : widgets) (f : form) :
  review_form env data w = inr f -> f = form_of_widgets w.
Proof.
  unfold review_form, bind. intros H.
  repeat match type of H with
         | match ?x with inl _ => _ | inr _ => _ end = _ =>
             destruct x; [discriminate H|]
         end.
  injection H as <-. reflexivity.
Qed.

Lemma count_posts_app (a b : list event) :
  count_posts (a ++ b) = (count_posts a + count_posts b)%nat.
Proof.
  induction a as [|ev a IH]; simpl; [reflexivity|].
  destruct ev; simpl; congruence.
Qed.

Lemma count_posts_in (evs : list event) (r : request) :
  In (post r) evs -> (1 <= count_posts evs)%nat.
Proof.
  induction evs as [|ev evs IH]; intros H; [contradiction|].
  destruct H as [->|H]; [simpl; lia|].
  specialize (IH H). destruct ev; simpl; lia.
Qed.

Lemma create_invoice_post (env : Env) (sb : sidebar) (f : form) (r : request) :
  In (post r) (create_invoice env sb f) ->
  validation_passes env sb f = true /\
  r = build_request sb (build_payload f).
Proof.
  intros H.
  destruct (create_invoice_cases env sb f) as [[_ [m E]] | [Hv E]];
    rewrite E in H.
  - destruct H as [H|[]]. discriminate H.
  - split; [exact Hv|].
    destruct (submit_reports env sb f) as (reports & Es & Hc & _).
    rewrite Es in H. destruct H as [H|[H|H]];
      [discriminate H | congruence |].
    apply count_posts_in in H. lia.
Qed.

Lemma run_create_keeps_session (ocr : ocr_service) (env : Env)
      (inp : run_input) (st : session) :
  pressed inp CreateInvoiceInOracle = true ->
  final (run ocr env inp st) = st.
Proof.
  intros H.
  rewrite run_without_ocr by (apply (pressed_one inp _ _ H); discriminate).
  rewrite (pressed_one inp _ AutoExtractInvoiceData H) by discriminate.
  destruct (step2_open st); [|reflexivity].
  destruct (truthy (extracted_data st)); [|reflexivity].
  destruct (review_form env _ _); reflexivity.
Qed.

Lemma run_ocr_frame (ocr : ocr_service) (env : Env) (inp : run_input)
      (st : session) :
  pressed inp ExtractInvoiceData = false ->
  ocr_result (final (run ocr env inp st)) = ocr_result st /\
  pdf_processed (final (run ocr env inp st)) = pdf_processed st.
Proof.
  intros H. rewrite run_without_ocr by exact H.
  destruct (step2_open st); [|split; reflexivity].
  pose proof (auto_extract_frame env (side inp) st) as (Ho & Hp & _).
  destruct (pressed inp AutoExtractInvoiceData).
  - destruct (auto_extract env (side inp) st) as [st2 ev2]. simpl in Ho, Hp.
    destruct (truthy (extracted_data st2));
      [destruct (review_form env _ _)|]; split; assumption.
  - destruct (truthy (extracted_data st));
      [destruct (review_form env _ _)|]; split; reflexivity.
Qed.

Lemma run_candidate_frame (ocr : ocr_service) (env : Env) (inp : run_input)
      (st : session) :
  pressed inp AutoExtractInvoiceData = false ->
  extracted_data (final (run ocr env inp st)) = extracted_data st.
Proof.
  intros H. unfold run. rewrite H.
  assert (E : forall st1 ev1,
    extracted_data st1 = extracted_data st ->
    extracted_data
      (final
         (if step2_open st1
          then
            let '(st2, ev2) := (st1, @nil event) in
            if truthy (extracted_data st2) then
              match review_form env (extracted_data st2) (values inp) with
              | inl e => {| final := st2; shown := (ev1 ++ ev2)%list;
                            uncaught := Some e |}
              | inr f =>
                  {| final := st2;
                     shown := (ev1 ++ ev2 ++
                               if pressed inp CreateInvoiceInOracle
                               then create_invoice env (side inp) f
                               else [])%list;
                     uncaught := None |}
              end
            else {| final := st2; shown := (ev1 ++ ev2)%list;
                    uncaught := None |}
          else {| final := st1; shown := ev1; uncaught := None |}))
    = extracted_data st).
  { intros st1 ev1 H1. destruct (step2_open st1); [|exact H1].
    destruct (truthy (extracted_data st1));
      [destruct (review_form env _ _)|]; exact H1. }
  destruct (uploaded_file inp) as [file_bytes|]; [|apply E; reflexivity].
  destruct (str_truthy _ && pressed inp ExtractInvoiceData);
    [|apply E; reflexivity].
  pose proof (extract_ocr_frame ocr (side inp) file_bytes st) as (Hd & _).
  destruct (extract_ocr ocr (side inp) file_bytes st) as [st1 ev1].
  apply E. exact Hd.
Qed.

(** X13: each button changes only its own part of the session.  Without
    the OCR button the OCR text and the processed flag stay; without the
    extraction button the candidate stays, so a new OCR run leaves the
    candidate of the earlier document in place; and a click on the create
    button changes nothing at all, whatever the ERP answered. *)
Theorem buttons_change_their_own_state (ocr : ocr_service) (env : Env)
    (inp : run_input) (st : session) :
  (pressed inp ExtractInvoiceData = false ->
   ocr_result (final (run ocr env inp st)) = ocr_result st /\
   pdf_processed (final (run ocr env inp st)) = pdf_processed st) /\
  (pressed inp AutoExtractInvoiceData = false ->
   extracted_data (final (run ocr env inp st)) = extracted_data st) /\
  (pressed inp CreateInvoiceInOracle = true ->
   final (run ocr env inp st) = st).
Proof.
  split; [apply run_ocr_frame|].
  split; [apply run_candidate_frame | apply run_create_keeps_session].
Qed.

(** The events of a run: those of steps 1 and 2, which hold no request,
    then those of the create handler when it ran. *)
Lemma run_structure (ocr : ocr_service) (env : Env) (inp : run_input)
      (st : session) :
  exists before after,
    shown (run ocr env inp st) = (before ++ after)%list /\
    count_posts before = O /\
    (after = [] \/
     pressed inp CreateInvoiceInOracle = true /\
     step2_open (final (run ocr env inp st)) = true /\
     truthy (extracted_data (final (run ocr env inp st))) = true /\
     exists f,
       review_form env (extracted_data (final (run ocr env inp st)))
         (values inp) = inr f /\
       after = create_invoice env (side inp) f).
Proof.
  unfold run.
  assert (H1 : exists st1 ev1,
    match uploaded_file inp with
    | Some file_bytes =>
        if str_truthy (mistral_api_key (side inp)) &&
           pressed inp ExtractInvoiceData
        then extract_ocr ocr (side inp) file_bytes st
        else (st, [])
    | None => (st, [])
    end = (st1, ev1) /\ count_posts ev1 = O).
  { destruct (uploaded_file inp) as [file_bytes|];
      [|exists st, []; split; reflexivity].
    destruct (str_truthy _ && pressed inp ExtractInvoiceData);
      [|exists st, []; split; reflexivity].
    pose proof (extract_ocr_frame ocr (side inp) file_bytes st) as (_ & _ & Hc).
    destruct (extract_ocr ocr (side inp) file_bytes st) as [st1 ev1].
    exists st1, ev1. split; [reflexivity | exact Hc]. }
  destruct H1 as (st1 & ev1 & -> & Hc1).
  destruct (step2_open st1) eqn:Hopen.
  2:{ exists ev1, []. rewrite app_nil_r. repeat split; auto. }
  assert (H2 : exists st2 ev2,
    (if pressed inp AutoExtractInvoiceData
     then auto_extract env (side inp) st1 else (st1, [])) = (st2, ev2) /\
    count_posts ev2 = O /\ step2_open st2 = true).
  { destruct (pressed inp AutoExtractInvoiceData).
    - pose proof (auto_extract_frame env (side inp) st1) as (Ho & Hp & Hc).
      destruct (auto_extract env (side inp) st1) as [st2 ev2].
      exists st2, ev2. split; [reflexivity|]. split; [exact Hc|].
      rewrite (step2_open_frame st1 st2 Ho Hp). exact Hopen.
    - exists st1, []. repeat split. exact Hopen. }
  destruct H2 as (st2 & ev2 & -> & Hc2 & Hopen2).
  destruct (truthy (extracted_data st2)) eqn:Ht.
  2:{ exists (ev1 ++ ev2)%list, []. rewrite app_nil_r.
      split; [reflexivity|]. split; [|left; reflexivity].
      rewrite count_posts_app. lia. }
  destruct (review_form env (extracted_data st2) (values inp)) as [e|f] eqn:Hf.
  { exists (ev1 ++ ev2)%list, []. rewrite app_nil_r.
    split; [reflexivity|]. split; [|left; reflexivity].
    rewrite count_posts_app. lia. }
  exists (ev1 ++ ev2)%list,
    (if pressed inp CreateInvoiceInOracle
     then create_invoice env (side inp) f else []).
  cbn [shown final]. split; [apply app_assoc|].
  split; [rewrite count_posts_app; lia|].
  destruct (pressed inp CreateInvoiceInOracle); [right | left; reflexivity].
  split; [reflexivity|]. split; [exact Hopen2|]. split; [exact Ht|].
  exists f. split; [exact Hf | reflexivity].
Qed.

(** X14: a request leaves only at the end of the whole path.  If a run
    sends a request, the create button was pressed in a session whose PDF
    was processed with a non-empty OCR text and whose candidate is not
    empty, every initial value of the form could be computed, the widget
    values passed the four rules, the request is the one built from those
    values, and the session is left as it was. *)
Theorem request_needs_every_step (ocr : ocr_service) (env : Env)
    (inp : run_input) (st : session) (r : request) :
  In (post r) (shown (run ocr env inp st)) ->
  pressed inp CreateInvoiceInOracle = true /\
  step2_open st = true /\
  truthy (extracted_data st) = true /\
  review_form env (extracted_data st) (values inp)
    = inr (form_of_widgets (values inp)) /\
  validation_passes env (side inp) (form_of_widgets (values inp)) = true /\
  r = build_request (side inp) (build_payload (form_of_widgets (values inp))) /\
  final (run ocr env inp st) = st.
Proof.
  intros H.
  destruct (run_structure ocr env inp st)
    as (before & after & E & Hc & Hafter).
  rewrite E in H. apply in_app_or in H as [H|H].
  { apply count_posts_in in H. lia. }
  destruct Hafter as [->|(Hp & Hopen & Ht & f & Hf & ->)]; [contradiction|].
  rewrite (run_create_keeps_session ocr env inp st Hp) in *.
  pose proof (review_form_value _ _ _ _ Hf) as ->.
  destruct (create_invoice_post _ _ _ _ H) as [Hv Hr].
  repeat split; assumption.
Qed.

Lemma request_needs_every_step_witness :
  validation_passes (sample_env (ret sample_reply) (ret created))
    sample_sidebar
    (form_of_widgets
       (Widgets "BU1" "ACME" "MAIN" "INV-7" (F64.of_Z 100) (Date 2024 2 13)
          "USD" EmptyString EmptyString "Services" 1
          (fun _ => F64.of_Z 100) (fun _ => "101.10")))
  = true.
Proof.
  refine (proj1 (proj2 (proj2 (proj2 (proj2
    (request_needs_every_step
       (fun _ _ => raise OtherException "unused")
       (sample_env (ret sample_reply) (ret created))
       (RunInput None sample_sidebar (Some CreateInvoiceInOracle)
          (Widgets "BU1" "ACME" "MAIN" "INV-7" (F64.of_Z 100)
             (Date 2024 2 13) "USD" EmptyString EmptyString "Services" 1
             (fun _ => F64.of_Z 100) (fun _ => "101.10")))
       (Session (Some "INVOICE 7") sample_object true)
       (build_request sample_sidebar
          (build_payload
             (form_of_widgets
                (Widgets "BU1" "ACME" "MAIN" "INV-7" (F64.of_Z 100)
                   (Date 2024 2 13) "USD" EmptyString EmptyString "Services"
                   1 (fun _ => F64.of_Z 100) (fun _ => "101.10")))))
       _)))))).
  vm_compute. right. left. reflexivity.
Defined.

Lemma run_session_invariant (ocr : ocr_service) (env : Env)
      (inp : run_input) (st : session) :
  final (run ocr env inp st) = st \/
  (pdf_processed (final (run ocr env inp st)) = true /\
   exists t, ocr_result (final (run ocr env inp st)) = Some t) \/
  (step2_open st = true /\
   ocr_result (final (run ocr env inp st)) = ocr_result st /\
   pdf_processed (final (run ocr env inp st)) = pdf_processed st).
Proof.
  destruct (pressed inp ExtractInvoiceData) eqn:Hx.
  - (* the OCR button: no other handler runs *)
    unfold run.
    rewrite (pressed_one inp _ AutoExtractInvoiceData Hx) by discriminate.
    rewrite Hx.
    assert (E : forall st1 ev1,
      final
        (if step2_open st1
         then
           let '(st2, ev2) := (st1, @nil event) in
           if truthy (extracted_data st2) then
             match review_form env (extracted_data st2) (values inp) with
             | inl e => {| final := st2; shown := (ev1 ++ ev2)%list;
                           uncaught := Some e |}
             | inr f =>
                 {| final := st2;
                    shown := (ev1 ++ ev2 ++
                              if pressed inp CreateInvoiceInOracle
                              then create_invoice env (side inp) f
                              else [])%list;
                    uncaught := None |}
             end
           else {| final := st2; shown := (ev1 ++ ev2)%list;
                   uncaught := None |}
         else {| final := st1; shown := ev1; uncaught := None |}) = st1).
    { intros st1 ev1. destruct (step2_open st1); [|reflexivity].
      destruct (truthy (extracted_data st1));
        [destruct (review_form env _ _)|]; reflexivity. }
    destruct (uploaded_file inp) as [file_bytes|];
      [|left; apply E].
    destruct (str_truthy (mistral_api_key (side inp)) && true);
      [|left; apply E].
    pose proof (extract_ocr_frame ocr (side inp) file_bytes st)
      as (_ & [Hs|Hs] & _);
      destruct (extract_ocr ocr (side inp) file_bytes st) as [st1 ev1];
      rewrite E; simpl in Hs; [left | right; left]; exact Hs.
  - destruct (step2_open st) eqn:Hopen.
    + right. right. split; [reflexivity|]. apply run_ocr_frame, Hx.
    + left. rewrite run_without_ocr by exact Hx. rewrite Hopen. reflexivity.
Qed.

(** X15: whatever the user does, a session is either still the fresh one
    or holds an OCR text with the processed flag set.  So a candidate, or
    any other trace of step 2, exists only after a PDF was processed. *)
Theorem reachable_sessions (st : session) :
  reachable st ->
  st = initial_session \/
  (pdf_processed st = true /\ exists t, ocr_result st = Some t).
Proof.
  induction 1 as [|ocr env inp st Hr IH]; [left; reflexivity|].
  destruct (run_session_invariant ocr env inp st)
    as [-> | [Hnew | (Hopen & Ho & Hp)]]; [exact IH | right; exact Hnew |].
  right. rewrite Ho, Hp.
  unfold step2_open in Hopen. apply andb_prop in Hopen as [Hpdf Hocr].
  split; [exact Hpdf|].
  destruct (ocr_result st) as [t|]; [eexists; reflexivity | discriminate Hocr].
Qed.

Lemma reachable_sessions_witness :
  Session (Some "# Invoice 7") (PDict []) true = initial_session \/
  (pdf_processed (Session (Some "# Invoice 7") (PDict []) true) = true /\
   exists t,
     ocr_result (Session (Some "# Invoice 7") (PDict []) true) = Some t).
Proof.
  apply reachable_sessions.
  exact (reach_run
           (fun _ _ => ret (HasPages [Page (ret (PStr "# Invoice 7"))]))
           (sample_env (ret sample_reply) (ret created))
           (RunInput (Some "%PDF-1.7") sample_sidebar
              (Some ExtractInvoiceData)
              (Widgets EmptyString EmptyString EmptyString EmptyString
                 F64.zero (Date 2024 2 13) EmptyString EmptyString
                 EmptyString EmptyString 1 (fun _ => F64.zero)
                 (fun _ => EmptyString)))
           initial_session reach_init).
Defined.

(** X16: an answer of the OCR service without pages, or of a shape the
    script does not know, is stored as an empty text and reported as a
    success; with an empty OCR text the script then shows and does nothing
    in any later run in which the OCR button is not pressed: neither
    extraction nor form nor submission can be reached. *)
Theorem empty_ocr_text_closes_steps :
  (forall ocr sb file_bytes st r,
     ocr (mistral_api_key sb)
         {| ocr_model := "mistral-ocr-latest";
            ocr_document := encode_document file_bytes;
            include_image_base64 := true |} = inr r ->
     pages_of r = [] ->
     extract_ocr ocr sb file_bytes st =
     ({| ocr_result := Some EmptyString;
         extracted_data := extracted_data st;
         pdf_processed := true |},
      [st_success "✅ PDF processed successfully!"])) /\
  (forall ocr env inp st,
     ocr_result st = Some EmptyString ->
     pressed inp ExtractInvoiceData = false ->
     run ocr env inp st = {| final := st; shown := []; uncaught := None |}).
Proof.
  split.
  - intros ocr sb file_bytes st r Hr Hp. unfold extract_ocr.
    rewrite Hr. simpl. rewrite Hp. reflexivity.
  - intros ocr env inp st Ho Hx. rewrite run_without_ocr by exact Hx.
    unfold step2_open. rewrite Ho, andb_false_r. reflexivity.
Qed.

Lemma empty_ocr_text_closes_steps_witness :
  run (fun _ _ => ret OtherObject)
      (sample_env (ret sample_reply) (ret created))
      (RunInput (Some "%PDF-1.7") sample_sidebar
         (Some AutoExtractInvoiceData)
         (Widgets EmptyString EmptyString EmptyString EmptyString
            F64.zero (Date 2024 2 13) EmptyString EmptyString
            EmptyString EmptyString 1 (fun _ => F64.zero)
            (fun _ => EmptyString)))
      (Session (Some EmptyString) (PDict []) true)
  = {| final := Session (Some EmptyString) (PDict []) true;
       shown := []; uncaught := None |}.
Proof.
  apply (proj2 empty_ocr_text_closes_steps); reflexivity.
Defined.

(** X17: a candidate whose invoice amount [float] does not accept blocks
    the form.  As long as that candidate is in the session and neither the
    OCR nor the extraction button is pressed, every run ends with the
    exception of the coercion before anything of steps 3 and 4 is shown:
    a click on the create button validates nothing and sends nothing. *)
Theorem uncoercible_amount_blocks_form (ocr : ocr_service) (env : Env)
    (inp : run_input) (st : session) (entries : list (string * pyval))
    (v : pyval) (e : exn) :
  step2_open st = true ->
  extracted_data st = PDict entries ->
  lookup "invoice_amount" entries = Some v ->
  py_float env v = inl e ->
  pressed inp ExtractInvoiceData = false ->
  pressed inp AutoExtractInvoiceData = false ->
  run ocr env inp st = {| final := st; shown := []; uncaught := Some e |}.
Proof.
  intros Hopen Hd Hl Hf Hx Ha.
  rewrite run_without_ocr by exact Hx. rewrite Hopen, Ha, Hd.
  assert (Ht : truthy (PDict entries) = true)
    by (destruct entries; [discriminate Hl | reflexivity]).
  rewrite Ht. unfold review_form, invoice_amount_value. simpl.
  rewrite Hl. simpl. rewrite Hf. reflexivity.
Qed.

Lemma uncoercible_amount_blocks_form_witness :
  run (fun _ _ => ret OtherObject)
      (sample_env (ret sample_reply) (ret created))
      (RunInput None sample_sidebar (Some CreateInvoiceInOracle)
         (Widgets "BU1" "ACME" "MAIN" "INV-7" (F64.of_Z 100) (Date 2024 2 13)
            "USD" EmptyString EmptyString "Services" 1
            (fun _ => F64.of_Z 100) (fun _ => "101.10")))
      (Session (Some "INVOICE 7") (PDict [("invoice_amount", PNone)]) true)
  = {| final :=
         Session (Some "INVOICE 7") (PDict [("invoice_amount", PNone)]) true;
       shown := [];
       uncaught :=
         Some (Exn TypeError
                 "float() argument must be a string or a real number") |}.
Proof.
  apply (uncoercible_amount_blocks_form _ _ _ _
           [("invoice_amount", PNone)] PNone); reflexivity.
Defined.

(** X18: what a run shows after the extraction button when the model's
    reply holds a span that [json.loads] accepts.  The parsed value
    replaces the candidate and success is reported; the form is then
    computed in the same run from the new candidate, not the old one.  If
    the parsed value is empty, as for the object without fields, success
    is all the run shows: no form appears. *)
Theorem run_after_extraction (ocr : ocr_service) (env : Env)
    (inp : run_input) (st : session) (reply span : string) (v : pyval) :
  step2_open st = true ->
  pressed inp AutoExtractInvoiceData = true ->
  chat_complete env (mistral_api_key (side inp)) (extraction_prompt st)
    = inr reply ->
  json_match reply = Some span ->
  json_loads env span = inr v ->
  final (run ocr env inp st) = set_extracted_data st v /\
  shown (run ocr env inp st)
    = [st_success "✅ Invoice data extracted successfully!"] /\
  uncaught (run ocr env inp st) =
    (if truthy v
     then match review_form env v (values inp) with
          | inl e => Some e
          | inr _ => None
          end
     else None).
Proof.
  intros Hopen Ha Hc Hm Hj.
  rewrite run_without_ocr
    by (apply (pressed_one inp _ _ Ha); discriminate).
  rewrite Hopen, Ha.
  rewrite (auto_extract_parsed env (side inp) st reply span v Hc Hm Hj).
  rewrite (pressed_one inp _ CreateInvoiceInOracle Ha) by discriminate.
  cbn [set_extracted_data extracted_data].
  destruct (truthy v); [|repeat split].
  destruct (review_form env v (values inp)); repeat split.
Qed.

Lemma run_after_extraction_witness :
  shown
    (run (fun _ _ => ret OtherObject)
       (sample_env (ret sample_reply) (ret created))
       (RunInput None sample_sidebar (Some AutoExtractInvoiceData)
          (Widgets EmptyString EmptyString EmptyString EmptyString
             F64.zero (Date 2024 2 13) EmptyString EmptyString
             EmptyString EmptyString 1 (fun _ => F64.zero)
             (fun _ => EmptyString)))
       (Session (Some "INVOICE 7") (PDict []) true))
  = [st_success "✅ Invoice data extracted successfully!"].
Proof.
  refine (proj1 (proj2
    (run_after_extraction _ _ _ _ sample_reply sample_object_text
       sample_object _ _ _ _ _))); vm_compute; reflexivity.
Defined.

(** ** The rows of the form *)

Lemma firstn_seq_le (n m start : nat) :
  (n <= m)%nat -> firstn n (seq start m) = seq start n.
Proof.
  revert m start. induction n as [|n IH]; intros m start H; [reflexivity|].
  destruct m as [|m]; [lia|]. simpl. f_equal. apply IH. lia.
Qed.

(** X19: the rows are collected by position.  When the number of lines is
    lowered and the remaining row inputs keep their values, the lines are
    the first ones of before, in the same order: rows are cut from the
    end, never reordered; and there are as many lines as the count says. *)
Theorem fewer_lines_cut_the_end (w w' : widgets) :
  (w_num_lines w <= w_num_lines w')%nat ->
  (forall i, (i < w_num_lines w)%nat ->
     w_line_amount w i = w_line_amount w' i /\
     w_distribution_comb w i = w_distribution_comb w' i) ->
  collect_lines w = firstn (w_num_lines w) (collect_lines w') /\
  List.length (collect_lines w) = w_num_lines w.
Proof.
  intros Hle Hrows. unfold collect_lines. split.
  - rewrite firstn_map, (firstn_seq_le _ _ 0 Hle).
    apply map_ext_in. intros i Hi. apply in_seq in Hi.
    destruct (Hrows i ltac:(lia)) as [-> ->]. reflexivity.
  - rewrite length_map, length_seq. reflexivity.
Qed.

Lemma fewer_lines_cut_the_end_witness :
  collect_lines
    (Widgets "BU1" "ACME" "MAIN" "INV-7" (F64.of_Z 100) (Date 2024 2 13)
       "USD" EmptyString EmptyString "Services" 1
       (fun i => F64.of_Z (Z.of_nat i + 1)) (fun _ => "101.10"))
  = firstn 1
      (collect_lines
         (Widgets "BU1" "ACME" "MAIN" "INV-7" (F64.of_Z 100) (Date 2024 2 13)
            "USD" EmptyString EmptyString "Services" 3
            (fun i => F64.of_Z (Z.of_nat i + 1)) (fun _ => "101.10"))).
Proof.
  refine (proj1 (fewer_lines_cut_the_end _ _ _ _)).
  - simpl. lia.
  - intros i _. split; reflexivity.
Defined.

Lemma buttons_change_their_own_state_witness :
  final
    (run (fun _ _ => ret OtherObject)
       (sample_env (ret sample_reply) (ret created))
       (RunInput None sample_sidebar (Some CreateInvoiceInOracle)
          (Widgets "BU1" "ACME" "MAIN" "INV-7" (F64.of_Z 100) (Date 2024 2 13)
             "USD" EmptyString EmptyString "Services" 1
             (fun _ => F64.of_Z 100) (fun _ => "101.10")))
       (Session (Some "INVOICE 7") sample_object true))
  = Session (Some "INVOICE 7") sample_object true.
Proof.
  apply (proj2 (proj2 (buttons_change_their_own_state _ _ _ _))).
  reflexivity.
Defined.
